(** * The data-science assistant: workflow state machine and request client

    A shallow embedding of the TypeScript sources
    - [App.tsx] (the five-stage workflow, [handleGoalSubmit], [handleReset]),
    - [components/FileUpload.tsx] ([onDrop], header derivation),
    - [components/ResultsDashboard.tsx] ([fetchAllData], [handleTestModel],
      [handleGenerateSample], the metrics tab and the test bench),
    - [components/GoalInput.tsx], [components/ProcessingView.tsx],
    - [services/geminiService.ts] (the request client),
    - [types.ts].

    Conventions of the embedding.
    - A JavaScript string is a [string]: a sequence of code units, here the
      code units below 256 (the ISO-8859-1 repertoire), on which
      [toLowerCase], [trim] and the case folding of regular expressions are
      written out exactly.
    - [string | undefined] is [option string], [None] being [undefined].
    - What [JSON.parse] returns is a [JSON] value; the casts to the
      interfaces of types.ts check nothing, so the cells typed by an
      interface hold whatever value was parsed, [null] included.
    - A plain object built by assignments is the finite map of its own
      properties; the assignment is [JS.assign], which adds no property
      for the key [__proto__].
    - An [async] function is a value of [Async]: state updates, [await]s on
      the generative service, [throw]; [try]/[catch]/[finally] are
      combinators.  The replies of the service are inputs of the model. *)

From Stdlib Require Import Ascii String NArith ZArith Bool List Lia.
From stdpp Require Import base option list strings gmap fin_maps pretty.

Open Scope string_scope.

(** ** JavaScript primitives on strings and arrays *)

Module JS.

Definition code (c : ascii) : N := N_of_ascii c.

Definition in_range (lo hi n : N) : bool := (lo <=? n)%N && (n <=? hi)%N.

(** [String.prototype.toLowerCase] on one code unit below 256:
    A..Z and the capital letters U+00C0..U+00DE (but the sign U+00D7)
    move up by 32, everything else is kept. *)
Definition lower_char (c : ascii) : ascii :=
  let n := code c in
  if in_range 65 90 n || (in_range 192 222 n && negb (n =? 215)%N)
  then ascii_of_N (n + 32) else c.

Fixpoint toLowerCase (s : string) : string :=
  match s with
  | EmptyString => EmptyString
  | String c s' => String (lower_char c) (toLowerCase s')
  end.

(** White space and line terminators of ECMAScript below 256:
    TAB, LF, VT, FF, CR, SP and NBSP. *)
Definition is_white_space (c : ascii) : bool :=
  let n := code c in in_range 9 13 n || (n =? 32)%N || (n =? 160)%N.

Fixpoint trimStart (s : string) : string :=
  match s with
  | EmptyString => EmptyString
  | String c s' => if is_white_space c then trimStart s' else s
  end.

Definition is_empty (s : string) : bool :=
  match s with EmptyString => true | String _ _ => false end.

Fixpoint trimEnd (s : string) : string :=
  match s with
  | EmptyString => EmptyString
  | String c s' =>
      let r := trimEnd s' in
      if is_white_space c && is_empty r then EmptyString else String c r
  end.

(** [s.trim()] *)
Definition trim (s : string) : string := trimEnd (trimStart s).

(** [s.startsWith(p)] *)
Fixpoint startsWith (p s : string) : bool :=
  match p, s with
  | EmptyString, _ => true
  | String a p', String b s' => Ascii.eqb a b && startsWith p' s'
  | String _ _, EmptyString => false
  end.

(** [s.includes(sub)] *)
Fixpoint includes (sub s : string) : bool :=
  startsWith sub s ||
  match s with
  | EmptyString => false
  | String _ s' => includes sub s'
  end.

(** [s.replace(/c/g, '')] for a one-character pattern [c]. *)
Fixpoint remove_all (c : ascii) (s : string) : string :=
  match s with
  | EmptyString => EmptyString
  | String a s' =>
      if Ascii.eqb a c then remove_all c s' else String a (remove_all c s')
  end.

(** [s.split(sep)] for a one-character separator: never the empty
    array, [''.split(sep)] is [['']]. *)
Fixpoint split (sep : ascii) (s : string) : list string :=
  match s with
  | EmptyString => [EmptyString]
  | String c s' =>
      if Ascii.eqb c sep then EmptyString :: split sep s'
      else match split sep s' with
           | [] => [String c EmptyString]
           | h :: t => String c h :: t
           end
  end.

(** [xs.join(sep)] *)
Fixpoint join (sep : string) (xs : list string) : string :=
  match xs with
  | [] => EmptyString
  | [x] => x
  | x :: rest => x +:+ sep +:+ join sep rest
  end.

(** [xs.slice(from, to)] for [0 <= from <= to]. *)
Definition slice {A} (from to : nat) (xs : list A) : list A :=
  take (to - from) (drop from xs).

(** [xs.includes(x)] on an array of strings. *)
Definition array_includes (xs : list string) (x : string) : bool :=
  existsb (String.eqb x) xs.

(** [xs[i]] for an integer index: [undefined] out of range. *)
Definition index {A} (xs : list A) (i : Z) : option A :=
  if (i <? 0)%Z then None else xs !! Z.to_nat i.

(** Canonicalization of one code unit for a regular expression with the
    flag [i] and without the flag [u]: the upper-case form when that is a
    single code unit, except that a code unit of 128 or more is never
    folded below 128.  The result may leave the range below 256
    (U+00B5 folds to U+039C, U+00FF to U+0178); U+00DF is kept, its
    upper-case form being two code units. *)
Definition canonicalize (c : ascii) : N :=
  let n := code c in
  if in_range 97 122 n then (n - 32)%N
  else if in_range 224 254 n && negb (n =? 247)%N then (n - 32)%N
  else if (n =? 181)%N then 924%N
  else if (n =? 255)%N then 376%N
  else n.

(** The letters a to z. *)
Definition is_ascii_lower (c : ascii) : bool := in_range 97 122 (code c).

Fixpoint all_ascii_lower (s : string) : bool :=
  match s with
  | EmptyString => true
  | String c s' => is_ascii_lower c && all_ascii_lower s'
  end.

(** Every code unit below 256. *)
Definition code_units : list ascii := map ascii_of_nat (seq 0 256).

(** A literal of the pattern matched at the head of [s], ignoring case. *)
Fixpoint match_literal_i (lit s : string) : bool :=
  match lit, s with
  | EmptyString, _ => true
  | String a lit', String b s' =>
      (canonicalize a =? canonicalize b)%N && match_literal_i lit' s'
  | String _ _, EmptyString => false
  end.

(** [/(l1|l2|...)/i.test(s)]: some alternative matches at some position. *)
Fixpoint regex_test_alt_i (alts : list string) (s : string) : bool :=
  existsb (fun lit => match_literal_i lit s) alts ||
  match s with
  | EmptyString => false
  | String _ s' => regex_test_alt_i alts s'
  end.

(** [obj[key] = value] on a plain object that inherits from
    [Object.prototype], seen through its own properties: the key
    [__proto__] runs the setter of the prototype and adds no property
    (it replaces the prototype when [value] is an object and does nothing
    when it is a primitive); every other key is written. *)
Definition assign {A} (key : string) (value : A) (obj : gmap string A)
  : gmap string A :=
  if String.eqb key "__proto__" then obj else <[key := value]> obj.

(** The names [Object.prototype] defines: a read of one of them on a plain
    object that has no such property of its own gives the inherited
    value, not [undefined]. *)
Definition object_prototype_names : list string :=
  ["constructor"; "__defineGetter__"; "__defineSetter__"; "hasOwnProperty";
   "__lookupGetter__"; "__lookupSetter__"; "isPrototypeOf";
   "propertyIsEnumerable"; "toString"; "valueOf"; "__proto__";
   "toLocaleString"].

(** The number of occurrences of a code unit. *)
Fixpoint count_char (c : ascii) (s : string) : nat :=
  match s with
  | EmptyString => 0
  | String a s' => (if Ascii.eqb a c then 1 else 0) + count_char c s'
  end.

(** Nothing but white space. *)
Fixpoint all_white_space (s : string) : bool :=
  match s with
  | EmptyString => true
  | String c s' => is_white_space c && all_white_space s'
  end.

End JS.

Definition dquote : ascii := "034"%char.
Definition newline : ascii := "010"%char.
Definition comma : ascii := ","%char.

(** ** types.ts *)

Inductive AppState :=
| FILE_UPLOAD | GOAL_INPUT | PROCESSING | MODEL_SELECTION | RESULTS_DASHBOARD.

Inductive TaskType := CLASSIFICATION | REGRESSION | OTHER.

Inductive FileType := csv | image.

Record FileData := mkFileData {
  name : string;
  type : FileType;
  content : string;
  headers : option (list string)
}.

(** A value of [JSON.parse].  A number is kept as the text [String]
    gives for it, so that zero is the text 0; an object holds its own
    properties in the order of [Object.entries], each key once. *)
#[warnings="-register-all"]
Inductive JSON :=
| JNull
| JBool (b : bool)
| JNumber (text : string)
| JString (s : string)
| JArray (items : list JSON)
| JObject (fields : list (string * JSON)).

(** [JSON.parse]; [None] is the [SyntaxError].  The parser is a parameter
    of the model. *)
Record JSONParse := mkJSONParse { JSON_parse : string -> option JSON }.

(** [JSON.parse(text) as T]: the cast to an interface of types.ts checks
    nothing, the value is whatever the text holds. *)
Definition parse_ModelSuggestion (J : JSONParse) : string -> option JSON :=
  JSON_parse J.
Definition parse_Metrics (J : JSONParse) : string -> option JSON :=
  JSON_parse J.
Definition parse_Sample (J : JSONParse) : string -> option JSON :=
  JSON_parse J.

(** The interfaces of types.ts, and the values that have their shape. *)
Record ModelSuggestion := mkModelSuggestion {
  recommended : string;
  options : list string;
  more_models : list string
}.

Definition JSON_of_ModelSuggestion (m : ModelSuggestion) : JSON :=
  JObject [("recommended", JString (recommended m));
           ("options", JArray (map JString (options m)));
           ("more_models", JArray (map JString (more_models m)))].

(** [number | string] *)
Inductive Scalar := SNumber (text : string) | SString (s : string).

Definition JSON_of_Scalar (v : Scalar) : JSON :=
  match v with SNumber text => JNumber text | SString s => JString s end.

Record Metrics := mkMetrics {
  metrics : list (string * Scalar);
  confusion_matrix : option (list (list string))
}.

Definition JSON_of_Metrics (m : Metrics) : JSON :=
  JObject
    (("metrics", JObject (map (fun kv => (kv.1, JSON_of_Scalar kv.2)) (metrics m)))
     :: match confusion_matrix m with
        | Some rows =>
            [("confusion_matrix", JArray (map (fun row => JArray (map JNumber row)) rows))]
        | None => []
        end).

(** ** JavaScript operations on the values of [JSON.parse] *)

Module JSValue.

(** Whether a value counts as true in a condition. *)
Definition truthy (v : JSON) : bool :=
  match v with
  | JNull => false
  | JBool b => b
  | JNumber text => negb (String.eqb text "0")
  | JString s => negb (JS.is_empty s)
  | JArray _ | JObject _ => true
  end.

Fixpoint lookup_field (name : string) (fields : list (string * JSON))
  : option JSON :=
  match fields with
  | [] => None
  | (k, v) :: rest => if String.eqb k name then Some v else lookup_field name rest
  end.

(** [v.name] on a value that is not [null], for a name that no prototype
    defines and that is no index ([metrics], [confusion_matrix]); [None]
    is [undefined]. *)
Definition field (v : JSON) (name : string) : option JSON :=
  match v with
  | JObject fields => lookup_field name fields
  | _ => None
  end.

(** [v[i]] on a value that is not [null]; [None] is [undefined]. *)
Definition at_index (v : JSON) (i : nat) : option JSON :=
  match v with
  | JArray items => items !! i
  | JString s =>
      match String.get i s with
      | Some c => Some (JString (String c ""))
      | None => None
      end
  | JObject fields => lookup_field (pretty i) fields
  | JNull | JBool _ | JNumber _ => None
  end.

Fixpoint characters (s : string) : list JSON :=
  match s with
  | EmptyString => []
  | String c s' => JString (String c "") :: characters s'
  end.

(** [Object.entries(v)]; [None] is the [TypeError] on [null]. *)
Definition Object_entries (v : JSON) : option (list (string * JSON)) :=
  match v with
  | JNull => None
  | JObject fields => Some fields
  | JArray items => Some (imap (fun i x => (pretty i, x)) items)
  | JString s => Some (imap (fun i x => (pretty i, x)) (characters s))
  | JBool _ | JNumber _ => Some []
  end.

(** [String(v)]; in an array [null] prints as nothing. *)
Fixpoint String_of (v : JSON) : string :=
  match v with
  | JNull => "null"
  | JBool true => "true"
  | JBool false => "false"
  | JNumber text => text
  | JString s => s
  | JArray items =>
      JS.join ","
        (map (fun item => match item with
                          | JNull => ""
                          | _ => String_of item
                          end) items)
  | JObject _ => "[object Object]"
  end.

(** Whether React renders the value as a child: a plain object is refused
    with an exception, an array is rendered item by item. *)
Fixpoint react_child (v : JSON) : bool :=
  match v with
  | JObject _ => false
  | JArray items => forallb react_child items
  | _ => true
  end.

End JSValue.

#[global] Instance AppState_eq_dec : EqDecision AppState.
Proof. solve_decision. Defined.
#[global] Instance TaskType_eq_dec : EqDecision TaskType.
Proof. solve_decision. Defined.
#[global] Instance FileType_eq_dec : EqDecision FileType.
Proof. solve_decision. Defined.

(** ** The generative service, seen from the client *)

(** The type of a schema property ([Type.NUMBER], [Type.STRING]). *)
Inductive SchemaType := NUMBER | STRING.

(** One call of [ai.models.generateContent], by the operation that issues
    it and the data its prompt and schema are built from. *)
Inductive Request :=
| ReqModelSuggestions (goal : string) (fileType : FileType)
| ReqTargetColumn (goal : string) (hs : list string)
| ReqExplanationGeneric (goal model : string) (fileType : FileType)
    (hs : option (list string))
| ReqExplanationCsv (goal model : string) (hs : list string) (sampleRows : string)
| ReqMetrics (model goal : string) (taskType : TaskType)
| ReqSampleInput (inputHeaders : list string) (target : option string)
    (sampleRows : string) (properties : gmap string SchemaType)
| ReqPrediction (goal model : string) (sampleInput : gmap string string)
    (hs : option (list string)).

(** What an awaited call resolves to: the promise is rejected, or it is
    fulfilled with a response whose [text] (a string, as the client types
    it) is given. *)
Inductive Reply := Rejected | Replied (text : string).

(** ** Asynchronous code

    An [async] function over the component state [St] that returns an [A]:
    it returns, throws, updates the state (a React setter), or awaits the
    service and goes on with the reply. *)
Inductive Async (St A : Type) : Type :=
| Return (a : A)
| Throw (e : string)
| SetState (f : St -> St) (k : Async St A)
| Await (req : Request) (k : Reply -> Async St A).

Arguments Return {St A} a.
Arguments Throw {St A} e.
Arguments SetState {St A} f k.
Arguments Await {St A} req k.

Fixpoint bind {St A B} (m : Async St A) (g : A -> Async St B) : Async St B :=
  match m with
  | Return a => g a
  | Throw e => Throw e
  | SetState f k => SetState f (bind k g)
  | Await req k => Await req (fun r => bind (k r) g)
  end.

(** [try { body } catch (e) { handler e }] *)
Fixpoint try_catch {St A} (body : Async St A) (handler : string -> Async St A)
  : Async St A :=
  match body with
  | Return a => Return a
  | Throw e => handler e
  | SetState f k => SetState f (try_catch k handler)
  | Await req k => Await req (fun r => try_catch (k r) handler)
  end.

(** [try { body } finally { fin }]: [fin] runs on both exits, and an
    exception of [body] is thrown again after it. *)
Fixpoint try_finally {St A} (body : Async St A) (fin : Async St unit)
  : Async St A :=
  match body with
  | Return a => bind fin (fun _ => Return a)
  | Throw e => bind fin (fun _ => Throw e)
  | SetState f k => SetState f (try_finally k fin)
  | Await req k => Await req (fun r => try_finally (k r) fin)
  end.

Declare Scope async_scope.
Delimit Scope async_scope with async.
Notation "'let*' x := m 'in' k" := (bind m (fun x => k))
  (at level 10, x name, m at level 100, k at level 200) : async_scope.
Notation "m ;; k" := (bind m (fun _ => k))
  (at level 100, k at level 200, right associativity) : async_scope.

(** One setter call. *)
Definition set {St} (f : St -> St) : Async St unit := SetState f (Return tt).

(** [await ai.models.generateContent(...)], then [response.text]: a
    rejected promise throws at the [await]. *)
Definition generateContent {St} (req : Request) : Async St string :=
  Await req (fun r =>
    match r with
    | Rejected => Throw "generateContent rejected"
    | Replied text => Return text
    end).

(** How a call ends. *)
Inductive Outcome (A : Type) := Returned (a : A) | Thrown (e : string).
Arguments Returned {A} a.
Arguments Thrown {A} e.

(** Running an [async] function to its end against a service that answers
    each request by [svc]; the requests issued are collected in order. *)
Fixpoint run {St A} (svc : Request -> Reply) (m : Async St A)
  (s : St) (sent : list Request) : St * list Request * Outcome A :=
  match m with
  | Return a => (s, sent, Returned a)
  | Throw e => (s, sent, Thrown e)
  | SetState f k => run svc k (f s) sent
  | Await req k => run svc (k (svc req)) s (sent ++ [req])
  end.

(** Running up to the next [await]: the function has ended, or it is
    suspended on a request with the rest of its body. *)
Inductive Suspended (St A : Type) :=
| Ended (o : Outcome A)
| Waiting (req : Request) (k : Reply -> Async St A).
Arguments Ended {St A} o.
Arguments Waiting {St A} req k.

Fixpoint run_sync {St A} (m : Async St A) (s : St) : St * Suspended St A :=
  match m with
  | Return a => (s, Ended (Returned a))
  | Throw e => (s, Ended (Thrown e))
  | SetState f k => run_sync k (f s)
  | Await req k => (s, Waiting req k)
  end.

Open Scope async_scope.

(** ** services/geminiService.ts *)

Module geminiService.

Definition generateModelSuggestions {St} (J : JSONParse)
  (goal : string) (fileType : FileType) : Async St JSON :=
  let* response_text := generateContent (ReqModelSuggestions goal fileType) in
  let text := JS.trim response_text in
  match parse_ModelSuggestion J text with
  | Some v => Return v
  | None => Throw "Received invalid format for model suggestions."
  end.

(** The value computed once the response has arrived (lines 63 to 72). *)
Definition chooseTargetColumn (hs : list string) (response_text : string)
  : option string :=
  let potentialTarget := JS.remove_all dquote (JS.trim response_text) in
  if JS.array_includes hs potentialTarget then Some potentialTarget
  else JS.index hs (Z.of_nat (length hs) - 1).

Definition extractTargetColumn {St} (goal : string) (hs : list string)
  : Async St (option string) :=
  let* response_text := generateContent (ReqTargetColumn goal hs) in
  Return (chooseTargetColumn hs response_text).

Definition is_some {A} (o : option A) : bool :=
  match o with Some _ => true | None => false end.

(** The request of [generateWorkflowExplanation]: the short prompt for an
    image or for missing headers or content, the prompt with the columns
    and the first five lines otherwise. *)
Definition explanation_request (goal model : string)
  (fileType : FileType) (hs : option (list string))
  (fileContent : option string) : Request :=
  match fileType, hs, fileContent with
  | csv, Some hs', Some fileContent' =>
      if JS.is_empty fileContent'
      then ReqExplanationGeneric goal model fileType hs
      else
        let sampleRows :=
          JS.join (String newline "")
            (JS.slice 0 5 (JS.split newline fileContent')) in
        ReqExplanationCsv goal model hs' sampleRows
  | _, _, _ => ReqExplanationGeneric goal model fileType hs
  end.

Definition generateWorkflowExplanation {St} (goal model : string)
  (fileType : FileType) (hs : option (list string))
  (fileContent : option string) : Async St string :=
  generateContent (explanation_request goal model fileType hs fileContent).

Definition generateMetrics {St} (J : JSONParse) (model goal : string)
  (taskType : TaskType) : Async St JSON :=
  let* response_text := generateContent (ReqMetrics model goal taskType) in
  let text := JS.trim response_text in
  match parse_Metrics J text with
  | Some v => Return v
  | None => Throw "Received invalid format for metrics."
  end.

(** The alternatives of the pattern of line 223. *)
Definition numeric_words : list string :=
  ["id"; "year"; "age"; "count"; "quantity"; "number"; "price"; "value";
   "score"; "rate"; "amount"].

(** [/(id|year|...|amount)/i.test(header)] *)
Definition numeric_hint (header : string) : bool :=
  JS.regex_test_alt_i numeric_words header.

(** The type line 223 to 227 declare for a header. *)
Definition hint_type (header : string) : SchemaType :=
  if numeric_hint header then NUMBER else STRING.

(** [h !== targetColumn]; no string is [undefined]. *)
Definition strict_neq (h : string) (targetColumn : option string) : bool :=
  match targetColumn with
  | Some t => negb (String.eqb h t)
  | None => true
  end.

(** The [reduce] of lines 221 to 229 over the object literal: one
    assignment [acc[header] = ...] per input header, a later header of the
    same name overwriting the earlier one.  The result is the own
    properties of the object, which are what the schema sent holds. *)
Definition schema_properties (inputHeaders : list string)
  : gmap string SchemaType :=
  foldl (fun acc header =>
           if numeric_hint header then JS.assign header NUMBER acc
           else JS.assign header STRING acc)
        ∅ inputHeaders.

Definition generateSampleInput {St} (J : JSONParse) (hs : list string)
  (csvContent : string) (targetColumn : option string)
  : Async St JSON :=
  let inputHeaders := List.filter (fun h => strict_neq h targetColumn) hs in
  let sampleRows :=
    JS.join (String newline "") (JS.slice 1 4 (JS.split newline csvContent)) in
  let properties := schema_properties inputHeaders in
  let* response_text :=
    generateContent
      (ReqSampleInput inputHeaders targetColumn sampleRows properties) in
  let text := JS.trim response_text in
  match parse_Sample J text with
  | Some v => Return v
  | None => Throw "Received invalid format for sample input."
  end.

Definition generatePrediction {St} (goal model : string)
  (sampleInput : gmap string string) (hs : option (list string))
  : Async St string :=
  let* response_text :=
    generateContent (ReqPrediction goal model sampleInput hs) in
  Return (JS.trim response_text).

End geminiService.

(** ** components/FileUpload.tsx *)

Module FileUpload.

(** The part of a browser [File] that [onDrop] reads. *)
Record File := mkFile { file_name : string; file_type : string }.

Definition endsWith (suffix s : string) : bool :=
  JS.startsWith (String.rev suffix) (String.rev s).

(** [lines[0].split(',')] mapped by [trim] and then by the global
    replacement of the double quote by nothing; [None] is the
    [TypeError] of a [split] on [undefined]. *)
Definition derive_headers (content : string) : option (list string) :=
  let lines := JS.split newline content in
  match JS.index lines 0 with
  | Some line0 =>
      Some (map (fun h => JS.remove_all dquote (JS.trim h))
                (JS.split comma line0))
  | None => None
  end.

(** [reader.onload]: what is passed to [onFileAccepted]. *)
Definition onload (file : File) (isCsv : bool) (content : string)
  : option FileData :=
  if isCsv then
    match derive_headers content with
    | Some hs => Some (mkFileData (file_name file) csv content (Some hs))
    | None => None
    end
  else Some (mkFileData (file_name file) image content None).

(** How the reader is asked to read: [readAsDataURL], [readAsText]. *)
Inductive ReadAs := AsDataURL | AsText.

(** [onDrop], with what the reader will deliver for a file and a way of
    reading ([None] when the reading is aborted or fails, which is only
    logged): the error shown in place, and the file data handed to the
    application once the reader has loaded. *)
Definition onDrop (acceptedFiles : list File)
  (read : File -> ReadAs -> option string)
  : option string * option FileData :=
  match acceptedFiles with
  | [] => (None, None)
  | file :: _ =>
      let isImage := JS.startsWith "image/" (file_type file) in
      let isCsv :=
        String.eqb (file_type file) "text/csv"
        || endsWith ".csv" (file_name file) in
      if negb isImage && negb isCsv
      then (Some "Invalid file type. Please upload a CSV or an image file.",
            None)
      else (None,
            match read file (if isImage then AsDataURL else AsText) with
            | Some content => onload file isCsv content
            | None => None
            end)
  end.

End FileUpload.

(** Every state update the function may still perform satisfies [P]. *)
Fixpoint updates_satisfy {St A} (P : (St -> St) -> Prop) (m : Async St A)
  : Prop :=
  match m with
  | Return _ | Throw _ => True
  | SetState f k => P f /\ updates_satisfy P k
  | Await _ k => forall r, updates_satisfy P (k r)
  end.

(** ** App.tsx *)

Module App.

(** The eight [useState] cells of the component. *)
Record State := mkState {
  appState : AppState;
  fileData : option FileData;
  userGoal : string;
  taskType : TaskType;
  targetColumn : option string;
  modelSuggestions : JSON;
  selectedModel : string;
  error : option string
}.

(** The initial values of the cells (lines 12 to 19). *)
Definition initial : State :=
  mkState FILE_UPLOAD None "" OTHER (Some "") JNull "" None.

Definition setAppState (v : AppState) (s : State) : State :=
  mkState v (fileData s) (userGoal s) (taskType s) (targetColumn s)
    (modelSuggestions s) (selectedModel s) (error s).
Definition setFileData (v : option FileData) (s : State) : State :=
  mkState (appState s) v (userGoal s) (taskType s) (targetColumn s)
    (modelSuggestions s) (selectedModel s) (error s).
Definition setUserGoal (v : string) (s : State) : State :=
  mkState (appState s) (fileData s) v (taskType s) (targetColumn s)
    (modelSuggestions s) (selectedModel s) (error s).
Definition setTaskType (v : TaskType) (s : State) : State :=
  mkState (appState s) (fileData s) (userGoal s) v (targetColumn s)
    (modelSuggestions s) (selectedModel s) (error s).
Definition setTargetColumn (v : option string) (s : State) : State :=
  mkState (appState s) (fileData s) (userGoal s) (taskType s) v
    (modelSuggestions s) (selectedModel s) (error s).
Definition setModelSuggestions (v : JSON) (s : State)
  : State :=
  mkState (appState s) (fileData s) (userGoal s) (taskType s) (targetColumn s)
    v (selectedModel s) (error s).
Definition setSelectedModel (v : string) (s : State) : State :=
  mkState (appState s) (fileData s) (userGoal s) (taskType s) (targetColumn s)
    (modelSuggestions s) v (error s).
Definition setError (v : option string) (s : State) : State :=
  mkState (appState s) (fileData s) (userGoal s) (taskType s) (targetColumn s)
    (modelSuggestions s) (selectedModel s) v.

Definition handleFileAccepted (data : FileData) (s : State) : State :=
  setError None (setAppState GOAL_INPUT (setFileData (Some data) s)).

(** The keyword test of lines 35 to 42, the task classifier. *)
Definition classifyTask (goal : string) : TaskType :=
  let lowerGoal := JS.toLowerCase goal in
  if JS.includes "classify" lowerGoal || JS.includes "categorize" lowerGoal
     || JS.includes "identify" lowerGoal
  then CLASSIFICATION
  else if JS.includes "predict" lowerGoal || JS.includes "forecast" lowerGoal
          || JS.includes "estimate" lowerGoal
  then REGRESSION
  else OTHER.

Definition retry_message : string :=
  "Failed to get model suggestions. Please try again.".

(** [handleGoalSubmit]; [fd] is the [fileData] of the render the callback
    was created in. *)
Definition handleGoalSubmit (J : JSONParse) (fd : option FileData)
  (goal : string) : Async State unit :=
  match fd with
  | None => Return tt
  | Some fileData =>
      set (setUserGoal goal) ;;
      set (setAppState PROCESSING) ;;
      set (setError None) ;;
      try_catch
        (set (setTaskType (classifyTask goal)) ;;
         match type fileData, headers fileData with
         | csv, Some hs =>
             let* target := geminiService.extractTargetColumn goal hs in
             set (setTargetColumn target)
         | _, _ => Return tt
         end ;;
         let* suggestions :=
           geminiService.generateModelSuggestions J goal (type fileData) in
         set (setModelSuggestions suggestions) ;;
         set (setAppState MODEL_SELECTION))
        (fun e =>
           set (setError (Some retry_message)) ;;
           set (setAppState GOAL_INPUT))
  end.

(** The state in which the requests of a submission are made: goal
    stored, stage [PROCESSING], error cleared, task type set. *)
Definition processing (goal : string) (s : State) : State :=
  setTaskType (classifyTask goal)
    (setError None (setAppState PROCESSING (setUserGoal goal s))).

(** The state after the [catch] block. *)
Definition reverted (s : State) : State :=
  setAppState GOAL_INPUT (setError (Some retry_message) s).

(** How the two requests of a submission end under a service [svc]:
    the identification of the target column fails when it is issued (a
    CSV file with headers) and rejected; the model suggestions fail when
    the request is rejected or its text does not parse. *)
Definition target_failed (svc : Request -> Reply) (fd : FileData)
  (goal : string) : Prop :=
  exists hs, type fd = csv /\ headers fd = Some hs
             /\ svc (ReqTargetColumn goal hs) = Rejected.

Definition suggestions_failed (J : JSONParse) (svc : Request -> Reply)
  (fd : FileData) (goal : string) : Prop :=
  match svc (ReqModelSuggestions goal (type fd)) with
  | Rejected => True
  | Replied text => parse_ModelSuggestion J (JS.trim text) = None
  end.

(** The target column after a submission: the one computed from the reply
    when the identification was issued and answered, the one held before
    otherwise. *)
Definition committed_target (svc : Request -> Reply) (fd : FileData)
  (goal : string) (before : option string) : option string :=
  match type fd, headers fd with
  | csv, Some hs =>
      match svc (ReqTargetColumn goal hs) with
      | Replied text => geminiService.chooseTargetColumn hs text
      | Rejected => before
      end
  | _, _ => before
  end.

Definition handleModelSelect (model : string) (s : State) : State :=
  setAppState RESULTS_DASHBOARD (setSelectedModel model s).

Definition handleReset (s : State) : State :=
  setTargetColumn (Some "")
    (setTaskType OTHER
       (setError None
          (setSelectedModel ""
             (setModelSuggestions JNull
                (setUserGoal ""
                   (setFileData None (setAppState FILE_UPLOAD s))))))).

(** *** The component over time

    Between two events the component holds its state, the handlers
    suspended at an [await], and (for the record) the requests sent. *)
Record World := mkWorld {
  state : State;
  pending : list (Reply -> Async State unit);
  sent : list Request
}.

Definition start : World := mkWorld initial [] [].

Inductive Event :=
| FileAccepted (data : FileData)
| GoalSubmit (goal : string)
| ModelSelect (model : string)
| Reset
| Resolve (i : nat) (r : Reply).

(** A handler runs up to its next [await]. *)
Definition launch (m : Async State unit) (w : World) : World :=
  match run_sync m (state w) with
  | (s', Ended _) => mkWorld s' (pending w) (sent w)
  | (s', Waiting req k) => mkWorld s' (pending w ++ [k]) (sent w ++ [req])
  end.

Definition step (J : JSONParse) (w : World) (ev : Event) : World :=
  match ev with
  | FileAccepted data =>
      mkWorld (handleFileAccepted data (state w)) (pending w) (sent w)
  | GoalSubmit goal =>
      launch (handleGoalSubmit J (fileData (state w)) goal) w
  | ModelSelect model =>
      mkWorld (handleModelSelect model (state w)) (pending w) (sent w)
  | Reset => mkWorld (handleReset (state w)) (pending w) (sent w)
  | Resolve i r =>
      match pending w !! i with
      | Some k => launch (k r) (mkWorld (state w) (delete i (pending w)) (sent w))
      | None => w
      end
  end.

(** The cells a submission writes before its first [await] only: an
    update keeps them when it leaves file data, goal, task type and
    selected model as they are. *)
Definition same_inputs (s s' : State) : Prop :=
  fileData s' = fileData s /\ userGoal s' = userGoal s
  /\ taskType s' = taskType s /\ selectedModel s' = selectedModel s.

Definition keeps_inputs (f : State -> State) : Prop :=
  forall s, same_inputs s (f s).

(** Every suspended handler will only perform updates that keep them. *)
Definition late_updates_keep_inputs (w : World) : Prop :=
  Forall (fun k => forall r, updates_satisfy keeps_inputs (k r)) (pending w).

Definition steps (J : JSONParse) (w : World) (evs : list Event) : World :=
  foldl (step J) w evs.

(** What the page lets happen in a state: a file dropped earlier may be
    loaded at any time (the reader is asynchronous and several files can
    be dropped before the first is loaded); the goal form is shown in
    [GOAL_INPUT] over a file (it submits a trimmed, non-empty goal); the
    model grid is rendered in [MODEL_SELECTION] and only over suggestions
    that count as true (line 84); the button Start Over is shown
    everywhere but in
    [FILE_UPLOAD]; a pending request may resolve at any time. *)
Definition enabled (w : World) (ev : Event) : bool :=
  match ev with
  | FileAccepted _ => true
  | GoalSubmit goal =>
      bool_decide (appState (state w) = GOAL_INPUT)
      && geminiService.is_some (fileData (state w))
      && negb (JS.is_empty goal) && String.eqb (JS.trim goal) goal
  | ModelSelect _ =>
      bool_decide (appState (state w) = MODEL_SELECTION)
      && JSValue.truthy (modelSuggestions (state w))
  | Reset => negb (bool_decide (appState (state w) = FILE_UPLOAD))
  | Resolve i _ => bool_decide (i < length (pending w))
  end.

(** The worlds the page can be brought to. *)
Inductive reachable (J : JSONParse) : World -> Prop :=
| reachable_start : reachable J start
| reachable_step w ev :
    reachable J w -> enabled w ev = true -> reachable J (step J w ev).

(** The task types in the order of the keyword test: a classification
    keyword overrides a regression keyword, which overrides none. *)
Definition task_rank (t : TaskType) : nat :=
  match t with OTHER => 0 | REGRESSION => 1 | CLASSIFICATION => 2 end.

(** The model suggestions a reply to the request delivers, if any. *)
Definition suggestions_of (J : JSONParse) (r : Reply) : option JSON :=
  match r with
  | Rejected => None
  | Replied text => parse_ModelSuggestion J (JS.trim text)
  end.

(** The state the handler of a submission ends in, from the state [s] in
    which the reply [r] to its model-suggestion request arrives. *)
Definition concluded (J : JSONParse) (r : Reply) (s : State) : State :=
  match suggestions_of J r with
  | Some suggestions =>
      setAppState MODEL_SELECTION (setModelSuggestions suggestions s)
  | None => reverted s
  end.

Definition is_reset (ev : Event) : bool :=
  match ev with Reset => true | _ => false end.

(** A history of one pass in which every file is loaded while the drop
    zone is shown: each event is one the page lets happen, none is a
    reset, and a file is accepted in the stage [FILE_UPLOAD] only. *)
Fixpoint orderly_pass (J : JSONParse) (w : World) (evs : list Event) : bool :=
  match evs with
  | [] => true
  | ev :: evs' =>
      enabled w ev && negb (is_reset ev)
      && match ev with
         | FileAccepted _ => bool_decide (appState (state w) = FILE_UPLOAD)
         | _ => true
         end
      && orderly_pass J (step J w ev) evs'
  end.

(** A state a handler may end in: the goal form or the model grid, over a
    file. *)
Definition settled (s : State) : Prop :=
  fileData s <> None
  /\ (appState s = GOAL_INPUT \/ appState s = MODEL_SELECTION).

(** From the state [s] the rest [m] of a handler suspends only in the
    stage [PROCESSING] over a file, and ends settled. *)
Fixpoint ends_well (m : Async State unit) (s : State) : Prop :=
  match m with
  | Return _ | Throw _ => settled s
  | SetState f k => ends_well k (f s)
  | Await _ k =>
      appState s = PROCESSING /\ fileData s <> None
      /\ forall r, ends_well (k r) s
  end.

(** The data each stage has when no handler is suspended. *)
Definition stable (s : State) : Prop :=
  match appState s with
  | FILE_UPLOAD => True
  | GOAL_INPUT | MODEL_SELECTION => fileData s <> None
  | PROCESSING => False
  | RESULTS_DASHBOARD =>
      fileData s <> None /\ JSValue.truthy (modelSuggestions s) = true
  end.

(** Stage, data and suspended handlers agree. *)
Definition consistent (w : World) : Prop :=
  (pending w = [] /\ stable (state w))
  \/ (exists k, pending w = [k] /\ appState (state w) = PROCESSING
                /\ fileData (state w) <> None
                /\ forall r, ends_well (k r) (state w)).

End App.

(** ** components/ResultsDashboard.tsx *)

Module ResultsDashboard.

Record Props := mkProps {
  userGoal : string;
  selectedModel : string;
  fileData : option FileData;
  taskType : TaskType;
  targetColumn : option string
}.

(** The object held by [isLoading]. *)
Record Loading := mkLoading {
  loading_explanation : bool;
  loading_metrics : bool;
  loading_prediction : bool;
  loading_sample : bool
}.

(** The [useState] cells of the component. *)
Record State := mkState {
  explanation : string;
  metrics : JSON;
  testInputValues : gmap string string;
  prediction : string;
  isLoading : Loading;
  error : option string;
  activeTab : string;
  isCopied : bool
}.

Definition initial : State :=
  mkState "" JNull ∅ "" (mkLoading true true false false) None "metrics" false.

Definition setExplanation (v : string) (s : State) : State :=
  mkState v (metrics s) (testInputValues s) (prediction s) (isLoading s)
    (error s) (activeTab s) (isCopied s).
Definition setMetrics (v : JSON) (s : State) : State :=
  mkState (explanation s) v (testInputValues s) (prediction s) (isLoading s)
    (error s) (activeTab s) (isCopied s).
Definition setTestInputValues (v : gmap string string) (s : State) : State :=
  mkState (explanation s) (metrics s) v (prediction s) (isLoading s)
    (error s) (activeTab s) (isCopied s).
Definition setPrediction (v : string) (s : State) : State :=
  mkState (explanation s) (metrics s) (testInputValues s) v (isLoading s)
    (error s) (activeTab s) (isCopied s).
(** [setIsLoading(prev => ...)] *)
Definition setIsLoading (f : Loading -> Loading) (s : State) : State :=
  mkState (explanation s) (metrics s) (testInputValues s) (prediction s)
    (f (isLoading s)) (error s) (activeTab s) (isCopied s).
Definition setError (v : option string) (s : State) : State :=
  mkState (explanation s) (metrics s) (testInputValues s) (prediction s)
    (isLoading s) v (activeTab s) (isCopied s).

Definition with_explanation (b : bool) (l : Loading) : Loading :=
  mkLoading b (loading_metrics l) (loading_prediction l) (loading_sample l).
Definition with_metrics (b : bool) (l : Loading) : Loading :=
  mkLoading (loading_explanation l) b (loading_prediction l) (loading_sample l).
Definition with_prediction (b : bool) (l : Loading) : Loading :=
  mkLoading (loading_explanation l) (loading_metrics l) b (loading_sample l).

Definition explanation_failed : string :=
  "Failed to generate workflow explanation.".
Definition metrics_failed : string := "Failed to generate model metrics.".
Definition incomplete_input : string :=
  "Please fill in all input fields to test the model.".
Definition prediction_failed : string := "Failed to generate prediction.".

(** [fetchAllData], run by the effect of lines 65 to 67 when the
    component is mounted. *)
Definition fetchAllData (J : JSONParse) (p : Props) : Async State unit :=
  match fileData p with
  | None => Return tt
  | Some fd =>
      try_finally
        (try_catch
           (set (setIsLoading (with_explanation true)) ;;
            let* exp :=
              geminiService.generateWorkflowExplanation (userGoal p)
                (selectedModel p) (type fd) (headers fd) (Some (content fd)) in
            set (setExplanation exp))
           (fun e => set (setError (Some explanation_failed))))
        (set (setIsLoading (with_explanation false))) ;;
      try_finally
        (try_catch
           (set (setIsLoading (with_metrics true)) ;;
            let* mets :=
              geminiService.generateMetrics J (selectedModel p) (userGoal p)
                (taskType p) in
            set (setMetrics mets))
           (fun e => set (setError (Some metrics_failed))))
        (set (setIsLoading (with_metrics false)))
  end.

(** The two requests of [fetchAllData]. *)
Definition explanation_request (p : Props) (fd : FileData) : Request :=
  geminiService.explanation_request (userGoal p) (selectedModel p)
    (type fd) (headers fd) (Some (content fd)).

Definition metrics_request (p : Props) : Request :=
  ReqMetrics (selectedModel p) (userGoal p) (taskType p).

(** The metrics a reply to the metrics request delivers, if any. *)
Definition metrics_of (J : JSONParse) (r : Reply) : option JSON :=
  match r with
  | Rejected => None
  | Replied text => parse_Metrics J (JS.trim text)
  end.

(** The effect of lines 69 to 79: one assignment [acc[header] = ''] per
    feature column. *)
Definition initialInputs (p : Props) (s : State) : State :=
  match fileData p with
  | Some fd =>
      match type fd, headers fd with
      | csv, Some hs =>
          setTestInputValues
            (foldl (fun acc header => JS.assign header "" acc) ∅
               (List.filter
                  (fun h => geminiService.strict_neq h (targetColumn p)) hs))
            s
      | _, _ => s
      end
  | None => s
  end.

(** [Object.values(testInputValues).some(v => v.trim() === '')] *)
Definition some_value_blank (inputs : gmap string string) : bool :=
  existsb (fun kv => JS.is_empty (JS.trim kv.2)) (map_to_list inputs).

Definition fileData_headers (fd : option FileData) : option (list string) :=
  match fd with Some d => headers d | None => None end.

(** [handleTestModel]; [inputs] is the [testInputValues] of the render the
    callback was created in. *)
Definition handleTestModel (p : Props) (inputs : gmap string string)
  : Async State unit :=
  if some_value_blank inputs then set (setError (Some incomplete_input))
  else
    set (setError None) ;;
    set (setIsLoading (with_prediction true)) ;;
    set (setPrediction "") ;;
    try_finally
      (try_catch
         (let* pred :=
            geminiService.generatePrediction (userGoal p) (selectedModel p)
              inputs (fileData_headers (fileData p)) in
          set (setPrediction pred))
         (fun e => set (setError (Some prediction_failed))))
      (set (setIsLoading (with_prediction false))).

(** What [renderMetrics] gives: the skeleton, the text that no metrics
    are available, the grid of the metrics held, or an exception thrown
    while the grid is built. *)
Inductive MetricsView :=
| LoadingSkeleton
| NoMetricsAvailable
| MetricsGrid (m : JSON)
| RenderThrows.

(** A cell [matrix[i][j]] of the confusion matrix: reading [matrix[i]]
    must not give [undefined] or [null], and the cell, if there is one,
    must be a value React renders. *)
Definition matrix_cell (matrix : JSON) (i j : nat) : bool :=
  match JSValue.at_index matrix i with
  | None | Some JNull => false
  | Some row =>
      match JSValue.at_index row j with
      | None => true
      | Some cell => JSValue.react_child cell
      end
  end.

(** Whether the grid of lines 123 to 162 is built without an exception:
    [Object.entries(metrics.metrics)] must not be called on [undefined] or
    [null], every value must be one React renders, and so must the four
    cells read when [metrics.confusion_matrix] counts as true. *)
Definition grid_builds (m : JSON) : bool :=
  match JSValue.field m "metrics" with
  | None => false
  | Some inner =>
      match JSValue.Object_entries inner with
      | None => false
      | Some entries =>
          forallb (fun kv => JSValue.react_child kv.2) entries
          && match JSValue.field m "confusion_matrix" with
             | None => true
             | Some matrix =>
                 if JSValue.truthy matrix
                 then matrix_cell matrix 0 0 && matrix_cell matrix 0 1
                      && matrix_cell matrix 1 0 && matrix_cell matrix 1 1
                 else true
             end
      end
  end.

Definition renderMetrics (s : State) : MetricsView :=
  if loading_metrics (isLoading s) then LoadingSkeleton
  else if negb (JSValue.truthy (metrics s)) then NoMetricsAvailable
  else if grid_builds (metrics s) then MetricsGrid (metrics s)
  else RenderThrows.

(** The test button is disabled while an input is blank or a prediction
    is loading (line 220). *)
Definition isTestButtonDisabled (s : State) : bool :=
  some_value_blank (testInputValues s) || loading_prediction (isLoading s).

Definition with_sample (b : bool) (l : Loading) : Loading :=
  mkLoading (loading_explanation l) (loading_metrics l) (loading_prediction l) b.

Definition sample_failed : string := "Failed to generate sample input.".

(** [Object.fromEntries]: a later entry of the same key wins. *)
Definition fromEntries (entries : list (string * string)) : gmap string string :=
  foldl (fun acc kv => <[kv.1 := kv.2]> acc) ∅ entries.

(** [Object.entries(sample)] with every value turned into a string; the
    [TypeError] of [Object.entries(null)] is thrown to the [catch]. *)
Definition sample_entries {St} (sample : JSON)
  : Async St (list (string * string)) :=
  match JSValue.Object_entries sample with
  | Some entries =>
      Return (map (fun kv => (kv.1, JSValue.String_of kv.2)) entries)
  | None => Throw "Cannot convert undefined or null to object"
  end.

(** [handleGenerateSample] *)
Definition handleGenerateSample (J : JSONParse) (p : Props)
  : Async State unit :=
  match fileData p with
  | Some fd =>
      match type fd, headers fd with
      | csv, Some hs =>
          if JS.is_empty (content fd) then Return tt
          else
            set (setIsLoading (with_sample true)) ;;
            set (setPrediction "") ;;
            try_finally
              (try_catch
                 (let* sample :=
                    geminiService.generateSampleInput J hs (content fd)
                      (targetColumn p) in
                  let* entries := sample_entries sample in
                  let sampleAsStrings := fromEntries entries in
                  set (setTestInputValues sampleAsStrings))
                 (fun e => set (setError (Some sample_failed))))
              (set (setIsLoading (with_sample false)))
      | _, _ => Return tt
      end
  | None => Return tt
  end.

(** [handleInputChange] of the test bench. *)
Definition handleInputChange (header value : string) (s : State) : State :=
  setTestInputValues (<[header := value]> (testInputValues s)) s.

(** The input headers of the test bench (line 219). *)
Definition inputHeaders (p : Props) : list string :=
  match fileData p with
  | Some fd =>
      match headers fd with
      | Some hs =>
          List.filter (fun h => geminiService.strict_neq h (targetColumn p)) hs
      | None => []
      end
  | None => []
  end.

(** The value handed to an input field, [testInputValues[header] || '']:
    the text held for the header, the empty text for no value, or, for a
    header the inputs do not hold and [Object.prototype] defines, the
    inherited member (an object or a function, no text). *)
Inductive FieldValue := FieldText (text : string) | FieldInherited.

Definition field_value (s : State) (header : string) : FieldValue :=
  match testInputValues s !! header with
  | Some v => FieldText v
  | None =>
      if JS.array_includes JS.object_prototype_names header
      then FieldInherited else FieldText ""
  end.

End ResultsDashboard.

(** ** components/GoalInput.tsx *)

Module GoalInput.

Record State := mkState { goal : string; isLoading : bool }.

Definition initial : State := mkState "" false.

Definition setGoal (v : string) (s : State) : State := mkState v (isLoading s).
Definition setIsLoading (v : bool) (s : State) : State := mkState (goal s) v.

(** [handleSubmit]: the new cells, and the goal handed to [onSubmit] if
    any.  A string is truthy when it is not empty. *)
Definition handleSubmit (s : State) : State * option string :=
  if negb (JS.is_empty (JS.trim (goal s)))
  then (setIsLoading true s, Some (JS.trim (goal s)))
  else (s, None).

Definition handleExampleClick (example : string) (s : State) : State :=
  setGoal example s.

(** The submit button is disabled on a blank goal and while loading. *)
Definition submit_disabled (s : State) : bool :=
  JS.is_empty (JS.trim (goal s)) || isLoading s.

End GoalInput.

(** ** components/ProcessingView.tsx *)

Module ProcessingView.

Definition steps : list string :=
  ["Analyzing dataset structure...";
   "Formulating preprocessing strategy...";
   "Evaluating potential feature engineering...";
   "Identifying suitable model architectures...";
   "Generating recommendations..."].

(** The update of the interval: [prev => (prev + 1) % steps.length]. *)
Definition tick (prev : nat) : nat := (prev + 1) mod length steps.

(** [currentStep] after [n] ticks of the interval. *)
Definition currentStep (n : nat) : nat := Nat.iter n tick 0.

(** [steps[currentStep]] *)
Definition label (n : nat) : option string := steps !! currentStep n.

End ProcessingView.

(** ** The dashboard inside the application

    While the stage is [RESULTS_DASHBOARD] the page holds the cells of
    [App] and those of the mounted [ResultsDashboard]; the handlers of the
    dashboard have the setters of their own component only. *)
Record Page := mkPage {
  page_app : App.State;
  page_dashboard : ResultsDashboard.State
}.

Definition on_dashboard (f : ResultsDashboard.State -> ResultsDashboard.State)
  (pg : Page) : Page :=
  mkPage (page_app pg) (f (page_dashboard pg)).

Fixpoint mounted {A} (m : Async ResultsDashboard.State A) : Async Page A :=
  match m with
  | Return a => Return a
  | Throw e => Throw e
  | SetState f k => SetState (on_dashboard f) (mounted k)
  | Await req k => Await req (fun r => mounted (k r))
  end.

(** The props [App] renders the dashboard with (lines 86 to 92). *)
Definition dashboard_props (a : App.State) : ResultsDashboard.Props :=
  ResultsDashboard.mkProps (App.userGoal a) (App.selectedModel a)
    (App.fileData a) (App.taskType a) (App.targetColumn a).

(** Entering the results: the dashboard is mounted with fresh cells and its
    effect runs [fetchAllData]. *)
Definition enter_results (J : JSONParse) (a : App.State) : Async Page unit :=
  mounted (ResultsDashboard.fetchAllData J (dashboard_props a)).

(** ** The specification's wording, for comparison with the code *)

Module Spec.

(** [s] contains [sub]: [sub] occurs in [s] as a block of consecutive
    characters. *)
Definition contains (s sub : string) : Prop :=
  exists before after, s = before +:+ sub +:+ after.

Definition contains_any (s : string) (words : list string) : Prop :=
  Exists (contains s) words.

Definition classification_keywords : list string :=
  ["classify"; "categorize"; "identify"].
Definition regression_keywords : list string :=
  ["predict"; "forecast"; "estimate"].

(** The numeric-hint words, as the specification lists them. *)
Definition numeric_hint_words : list string :=
  ["id"; "year"; "age"; "count"; "quantity"; "number"; "price"; "value";
   "score"; "rate"; "amount"].

(** The first line of a content: the characters before its first line
    feed. *)
Fixpoint first_line (content : string) : string :=
  match content with
  | EmptyString => EmptyString
  | String c rest =>
      if Ascii.eqb c newline then EmptyString else String c (first_line rest)
  end.

(** A field trimmed of whitespace and stripped of quote characters. *)
Definition clean_field (field : string) : string :=
  JS.remove_all dquote (JS.trim field).

(** The column names: the first line split on commas, each field
    cleaned. *)
Definition columnNames (content : string) : list string :=
  map clean_field (JS.split comma (first_line content)).

End Spec.

(** ** Data for the examples *)

Module Examples.

Definition quoted (s : string) : string :=
  String dquote (s +:+ String dquote "").

(** The content [a,"b",c] followed by a line feed and [row1]. *)
Definition abc_csv : string :=
  "a," +:+ quoted "b" +:+ ",c" +:+ String newline "row1".

Definition suggestion_text : string :=
  "{" +:+ quoted "recommended" +:+ ":" +:+ quoted "XGBoost" +:+ ","
  +:+ quoted "options" +:+ ":[]," +:+ quoted "more_models" +:+ ":[]}".

Definition metrics_text : string :=
  "{" +:+ quoted "metrics" +:+ ":{}}".

(** A document of the shape of the metrics interface whose confusion
    matrix has no row. *)
Definition no_rows_text : string :=
  "{" +:+ quoted "metrics" +:+ ":{}," +:+ quoted "confusion_matrix" +:+ ":[]}".

Definition sample_text : string :=
  "{" +:+ quoted "date" +:+ ":" +:+ quoted "2024-03" +:+ ","
  +:+ quoted "region" +:+ ":7}".

(** A parser for the examples: on the four documents above, on the
    documents null and {} and on the texts it refuses it does what
    [JSON.parse] does; it is used on no other text. *)
Definition parser : JSONParse :=
  mkJSONParse
    (fun t =>
       if String.eqb t suggestion_text
       then Some (JSON_of_ModelSuggestion (mkModelSuggestion "XGBoost" [] []))
       else if String.eqb t metrics_text
       then Some (JSON_of_Metrics (mkMetrics [] None))
       else if String.eqb t no_rows_text
       then Some (JSON_of_Metrics (mkMetrics [] (Some [])))
       else if String.eqb t sample_text
       then Some (JObject [("date", JString "2024-03");
                           ("region", JNumber "7")])
       else if String.eqb t "null" then Some JNull
       else if String.eqb t "{}" then Some (JObject [])
       else None).

Definition cats_png : FileData :=
  mkFileData "cats.png" image "data:image/png;base64,AAAA" None.

Definition sales_csv : FileData :=
  mkFileData "sales.csv" csv
    ("date,region,amount" +:+ String newline "2024-01,north,10")
    (Some ["date"; "region"; "amount"]).

(** A table with a column of the name [__proto__]. *)
Definition proto_csv : FileData :=
  mkFileData "proto.csv" csv
    ("__proto__,price,sold" +:+ String newline "a,12,yes")
    (Some ["__proto__"; "price"; "sold"]).

(** A service whose every call is rejected. *)
Definition service_down : Request -> Reply := fun _ => Rejected.

(** A service that answers the model-suggestion request with the
    document above and names [amount] as target. *)
Definition service_up : Request -> Reply := fun req =>
  match req with
  | ReqModelSuggestions _ _ => Replied suggestion_text
  | ReqTargetColumn _ _ => Replied (quoted "amount")
  | ReqMetrics _ _ _ => Replied metrics_text
  | _ => Replied "text"
  end.

(** The explanation request is rejected, the others are answered. *)
Definition service_no_explanation : Request -> Reply := fun req =>
  match req with
  | ReqExplanationGeneric _ _ _ _ | ReqExplanationCsv _ _ _ _ => Rejected
  | _ => service_up req
  end.

(** The explanation request is rejected and the metrics request is
    answered with [text]. *)
Definition service_metrics_reply (text : string) : Request -> Reply :=
  fun req =>
    match req with
    | ReqMetrics _ _ _ => Replied text
    | _ => service_no_explanation req
    end.

(** The sample-row request is answered with [text]. *)
Definition service_sample_reply (text : string) : Request -> Reply :=
  fun req =>
    match req with
    | ReqSampleInput _ _ _ _ => Replied text
    | _ => service_up req
    end.

(** The metrics request is rejected, the others are answered. *)
Definition service_no_metrics : Request -> Reply := fun req =>
  match req with
  | ReqMetrics _ _ _ => Rejected
  | _ => service_up req
  end.

(** The target column is identified, the model suggestions are not
    delivered. *)
Definition service_no_suggestions : Request -> Reply := fun req =>
  match req with
  | ReqModelSuggestions _ _ => Replied "Sorry, I cannot help with that."
  | _ => service_up req
  end.

End Examples.

(** * Properties *)

(** ** Strings *)

Section JSFacts.

Lemma append_cons (x : ascii) (a b : string) :
  String x a +:+ b = String x (a +:+ b).
Proof. reflexivity. Qed.

Lemma append_nil (b : string) : "" +:+ b = b.
Proof. reflexivity. Qed.

Lemma startsWith_spec (p s : string) :
  JS.startsWith p s = true <-> exists t, s = p +:+ t.
Proof.
  revert s. induction p as [|a p IH]; intros s; simpl.
  - split; [intros _; now exists s | reflexivity].
  - destruct s as [|b s].
    + split; [discriminate | intros [t Ht]; discriminate].
    + rewrite andb_true_iff, Ascii.eqb_eq, IH. split.
      * intros [-> [t ->]]. now exists t.
      * intros [t Ht]. rewrite append_cons in Ht. injection Ht as -> ->.
        split; [reflexivity | now exists t].
Qed.

Lemma includes_spec (sub s : string) :
  JS.includes sub s = true <-> Spec.contains s sub.
Proof.
  unfold Spec.contains. induction s as [|c s IH].
  - simpl. rewrite orb_false_r, startsWith_spec. split.
    + intros [t Ht]. now exists "", t.
    + intros [a [b H]]. destruct a; [now exists b | discriminate].
  - cbn [JS.includes]. rewrite orb_true_iff, startsWith_spec, IH. split.
    + intros [[t Ht] | [a [b H]]].
      * now exists "", t.
      * exists (String c a), b. now rewrite append_cons, H.
    + intros [a [b H]]. destruct a as [|x a].
      * left. now exists b.
      * right. rewrite append_cons in H. injection H as _ H. now exists a, b.
Qed.

Lemma toLowerCase_app (a b : string) :
  JS.toLowerCase (a +:+ b) = JS.toLowerCase a +:+ JS.toLowerCase b.
Proof.
  induction a as [|x a IH]; [reflexivity |].
  rewrite append_cons. simpl. now rewrite IH, append_cons.
Qed.

(** A word in lower case that occurs in a string occurs in its lower-case
    form. *)
Lemma contains_toLowerCase (s word : string) :
  JS.toLowerCase word = word ->
  Spec.contains s word -> Spec.contains (JS.toLowerCase s) word.
Proof.
  intros Hw [a [b ->]]. exists (JS.toLowerCase a), (JS.toLowerCase b).
  now rewrite !toLowerCase_app, Hw.
Qed.

Lemma split_not_nil (sep : ascii) (s : string) : JS.split sep s <> [].
Proof.
  induction s as [|c s IH]; simpl; [discriminate |].
  destruct (Ascii.eqb c sep); [discriminate |].
  destruct (JS.split sep s); [contradiction | discriminate].
Qed.

(** The first piece of a split on the line feed is the first line. *)
Lemma split_newline_head (s : string) :
  JS.index (JS.split newline s) 0 = Some (Spec.first_line s).
Proof.
  unfold JS.index. simpl. induction s as [|c s IH]; simpl; [reflexivity |].
  destruct (Ascii.eqb c newline); [reflexivity |].
  destruct (JS.split newline s) as [|h t]; simpl in *; [discriminate |].
  now injection IH as ->.
Qed.

Lemma includes_false_iff (sub s : string) :
  JS.includes sub s = false <-> ~ Spec.contains s sub.
Proof.
  rewrite <- includes_spec. destruct (JS.includes sub s); split; intros H;
    try reflexivity; try discriminate.
  now destruct H.
Qed.

End JSFacts.

(** ** The task classifier and goal submission *)

Section GoalSubmission.

Context (J : JSONParse).

Lemma contains_any_classification (s : string) :
  Spec.contains_any s Spec.classification_keywords <->
  JS.includes "classify" s || JS.includes "categorize" s
  || JS.includes "identify" s = true.
Proof.
  unfold Spec.contains_any, Spec.classification_keywords.
  rewrite !Exists_cons, Exists_nil, !orb_true_iff, !includes_spec. tauto.
Qed.

Lemma contains_any_regression (s : string) :
  Spec.contains_any s Spec.regression_keywords <->
  JS.includes "predict" s || JS.includes "forecast" s
  || JS.includes "estimate" s = true.
Proof.
  unfold Spec.contains_any, Spec.regression_keywords.
  rewrite !Exists_cons, Exists_nil, !orb_true_iff, !includes_spec. tauto.
Qed.

Lemma classifyTask_classification (goal : string) :
  Spec.contains_any (JS.toLowerCase goal) Spec.classification_keywords ->
  App.classifyTask goal = CLASSIFICATION.
Proof.
  intros H. apply contains_any_classification in H.
  unfold App.classifyTask. cbv zeta. now rewrite H.
Qed.

Lemma classifyTask_regression (goal : string) :
  ~ Spec.contains_any (JS.toLowerCase goal) Spec.classification_keywords ->
  Spec.contains_any (JS.toLowerCase goal) Spec.regression_keywords ->
  App.classifyTask goal = REGRESSION.
Proof.
  intros Hc Hr. rewrite contains_any_classification in Hc.
  apply contains_any_regression in Hr. apply not_true_is_false in Hc.
  unfold App.classifyTask. cbv zeta. now rewrite Hc, Hr.
Qed.

Lemma classifyTask_other (goal : string) :
  ~ Spec.contains_any (JS.toLowerCase goal) Spec.classification_keywords ->
  ~ Spec.contains_any (JS.toLowerCase goal) Spec.regression_keywords ->
  App.classifyTask goal = OTHER.
Proof.
  intros Hc Hr. rewrite contains_any_classification in Hc.
  rewrite contains_any_regression in Hr.
  apply not_true_is_false in Hc, Hr.
  unfold App.classifyTask. cbv zeta. now rewrite Hc, Hr.
Qed.

(** The last part of the [try] block, from the model-suggestion call. *)
Lemma run_suggestions svc goal fd (a : App.State) sent :
  let req := ReqModelSuggestions goal (type fd) in
  run svc
    (try_catch
       (let* suggestions :=
          geminiService.generateModelSuggestions J goal (type fd) in
        set (App.setModelSuggestions suggestions) ;;
        set (App.setAppState MODEL_SELECTION))
       (fun e =>
          set (App.setError (Some App.retry_message)) ;;
          set (App.setAppState GOAL_INPUT))) a sent
  = match svc req with
    | Rejected => (App.reverted a, (sent ++ [req])%list, Returned tt)
    | Replied text =>
        match parse_ModelSuggestion J (JS.trim text) with
        | Some v =>
            (App.setAppState MODEL_SELECTION
               (App.setModelSuggestions v a),
             (sent ++ [req])%list, Returned tt)
        | None => (App.reverted a, (sent ++ [req])%list, Returned tt)
        end
    end.
Proof.
  cbv zeta. unfold geminiService.generateModelSuggestions, generateContent.
  cbn [bind try_catch run].
  destruct (svc (ReqModelSuggestions goal (type fd))) as [|text]; [reflexivity |].
  cbn [bind try_catch run].
  destruct (parse_ModelSuggestion J (JS.trim text)); reflexivity.
Qed.

(** Every run of a submission with a file ends without an exception, in
    the reverted state or in the model selection, over the processing
    state with or without a new target column. *)
Lemma run_handleGoalSubmit_shape svc fd goal (a : App.State) sent :
  exists a1 a2 sent',
    run svc (App.handleGoalSubmit J (Some fd) goal) a sent
    = (a2, sent', Returned tt)
    /\ (a1 = App.processing goal a
        \/ exists t, a1 = App.setTargetColumn t (App.processing goal a))
    /\ (a2 = App.reverted a1
        \/ exists v, a2 = App.setAppState MODEL_SELECTION
                            (App.setModelSuggestions v a1)).
Proof.
  unfold App.handleGoalSubmit, set.
  cbn [bind try_catch run]. fold (App.processing goal a).
  pose proof (run_suggestions svc goal fd) as Hs. cbv zeta in Hs.
  unfold set in Hs. cbn [bind] in Hs.
  destruct (type fd) eqn:Ht; [destruct (headers fd) as [hs|] eqn:Hh |].
  - unfold geminiService.extractTargetColumn, generateContent.
    cbn [bind try_catch run].
    destruct (svc (ReqTargetColumn goal hs)) as [|text].
    + cbn [bind try_catch run]. eexists _, _, _. split; [reflexivity |].
      split; [left; reflexivity | left; reflexivity].
    + cbn [bind try_catch run]. rewrite Hs.
      destruct (svc (ReqModelSuggestions goal csv)) as [|text'];
        [| destruct (parse_ModelSuggestion J (JS.trim text')) as [v|]];
        eexists _, _, _; (split; [reflexivity |]);
        (split; [right; eexists; reflexivity |]); eauto.
  - cbn [bind try_catch run]. rewrite Hs.
    destruct (svc (ReqModelSuggestions goal csv)) as [|text'];
      [| destruct (parse_ModelSuggestion J (JS.trim text')) as [v|]];
      eexists _, _, _; (split; [reflexivity |]);
      (split; [left; reflexivity |]); eauto.
  - cbn [bind try_catch run]. rewrite Hs.
    destruct (svc (ReqModelSuggestions goal image)) as [|text'];
      [| destruct (parse_ModelSuggestion J (JS.trim text')) as [v|]];
      eexists _, _, _; (split; [reflexivity |]);
      (split; [left; reflexivity |]); eauto.
Qed.

(** C4.  The task classifier is a function of the goal alone, decided on
    the lower-case form of the goal: a classification keyword gives
    CLASSIFICATION; otherwise a regression keyword gives REGRESSION;
    otherwise the result is OTHER.  In particular a goal that contains
    both the word classify and the word predict is a CLASSIFICATION, a
    goal whose lower-case form contains none of the six keywords is
    OTHER, and the task type a submission stores is the classifier's
    value whatever the state and the service are. *)
Theorem classifyTask_keywords (goal : string) :
  let lowerGoal := JS.toLowerCase goal in
  (Spec.contains_any lowerGoal Spec.classification_keywords ->
   App.classifyTask goal = CLASSIFICATION)
  /\ (~ Spec.contains_any lowerGoal Spec.classification_keywords ->
      Spec.contains_any lowerGoal Spec.regression_keywords ->
      App.classifyTask goal = REGRESSION)
  /\ (~ Spec.contains_any lowerGoal Spec.classification_keywords ->
      ~ Spec.contains_any lowerGoal Spec.regression_keywords ->
      App.classifyTask goal = OTHER)
  /\ (Spec.contains goal "classify" -> Spec.contains goal "predict" ->
      App.classifyTask goal = CLASSIFICATION)
  /\ ((forall word,
         word ∈ (Spec.classification_keywords ++ Spec.regression_keywords)%list ->
         ~ Spec.contains lowerGoal word) ->
      App.classifyTask goal = OTHER)
  /\ (forall svc fd a sent,
        App.taskType
          (run svc (App.handleGoalSubmit J (Some fd) goal) a sent).1.1
        = App.classifyTask goal).
Proof.
  cbv zeta. repeat split.
  - apply classifyTask_classification.
  - apply classifyTask_regression.
  - apply classifyTask_other.
  - intros Hc _. apply classifyTask_classification.
    apply Exists_cons_hd, contains_toLowerCase; [reflexivity | exact Hc].
  - intros Hnone. apply classifyTask_other.
    + intros H. apply Exists_exists in H as [word [Hin Hw]].
      apply (Hnone word); [apply elem_of_app; left; exact Hin | exact Hw].
    + intros H. apply Exists_exists in H as [word [Hin Hw]].
      apply (Hnone word); [apply elem_of_app; right; exact Hin | exact Hw].
  - intros svc fd a sent.
    destruct (run_handleGoalSubmit_shape svc fd goal a sent)
      as (a1 & a2 & sent' & -> & H1 & H2).
    cbn [fst].
    destruct H2 as [-> | [v ->]]; destruct H1 as [-> | [t ->]]; reflexivity.
Qed.

(** C1, as amended.  When the identification of the target column or the
    model-suggestion request of a submission fails, the handler ends
    without an exception in the stage GOAL_INPUT with the retry message
    (a non-empty text) as error; the goal submitted is kept; the target
    column is the one a successful identification committed, and the one
    held before otherwise; the task type derived from the goal is kept as
    well; model suggestions, selected model and file data are those held
    before the submission. *)
Theorem goal_failure_reverts svc (a : App.State) fd goal :
  App.fileData a = Some fd ->
  App.target_failed svc fd goal \/ App.suggestions_failed J svc fd goal ->
  exists a' sent,
    run svc (App.handleGoalSubmit J (App.fileData a) goal) a []
    = (a', sent, Returned tt)
    /\ App.appState a' = GOAL_INPUT
    /\ App.error a' = Some App.retry_message
    /\ App.retry_message <> ""
    /\ App.userGoal a' = goal
    /\ App.targetColumn a'
       = App.committed_target svc fd goal (App.targetColumn a)
    /\ App.taskType a' = App.classifyTask goal
    /\ App.modelSuggestions a' = App.modelSuggestions a
    /\ App.selectedModel a' = App.selectedModel a
    /\ App.fileData a' = App.fileData a.
Proof.
  intros Hfd Hfail. rewrite Hfd.
  unfold App.handleGoalSubmit, set.
  cbn [bind try_catch run]. fold (App.processing goal a).
  pose proof (run_suggestions svc goal fd) as Hs. cbv zeta in Hs.
  unfold set in Hs. cbn [bind] in Hs.
  unfold App.committed_target, App.suggestions_failed in *.
  assert (Hmsg : App.retry_message <> "") by discriminate.
  destruct (type fd) eqn:Ht; [destruct (headers fd) as [hs|] eqn:Hh |].
  - unfold geminiService.extractTargetColumn, generateContent.
    cbn [bind try_catch run].
    destruct (svc (ReqTargetColumn goal hs)) as [|text] eqn:Hsvc.
    + cbn [bind try_catch run]. eexists _, _. split; [reflexivity |].
      repeat split; assumption.
    + cbn [bind try_catch run]. rewrite Hs.
      destruct Hfail as [(hs' & _ & Hh' & Hrej) | Hfail].
      { congruence. }
      destruct (svc (ReqModelSuggestions goal csv)) as [|text'];
        [| rewrite Hfail]; eexists _, _; (split; [reflexivity |]);
        repeat split; assumption.
  - cbn [bind try_catch run]. rewrite Hs.
    destruct Hfail as [(hs' & _ & Hh' & Hrej) | Hfail]; [congruence |].
    destruct (svc (ReqModelSuggestions goal csv)) as [|text'];
      [| rewrite Hfail]; eexists _, _; (split; [reflexivity |]);
      repeat split; assumption.
  - cbn [bind try_catch run]. rewrite Hs.
    destruct Hfail as [(hs' & Ht' & _) | Hfail]; [congruence |].
    destruct (svc (ReqModelSuggestions goal image)) as [|text'];
      [| rewrite Hfail]; eexists _, _; (split; [reflexivity |]);
      repeat split; assumption.
Qed.

(** C10.  A goal submitted while no file data is held changes nothing:
    the handler returns at once, every cell of the state (stage and error
    included) is as before, and no request is issued; the same holds of
    the event in the component over time, where nothing is suspended
    either. *)
Theorem goal_submit_without_file svc (a : App.State) goal sent :
  App.fileData a = None ->
  run svc (App.handleGoalSubmit J (App.fileData a) goal) a sent
  = (a, sent, Returned tt)
  /\ forall w, App.state w = a -> App.step J w (App.GoalSubmit goal) = w.
Proof.
  intros Hfd. split.
  - rewrite Hfd. reflexivity.
  - intros [s p l] Hw. simpl in Hw. subst s.
    unfold App.step, App.launch. cbn [App.state App.pending App.sent].
    rewrite Hfd. reflexivity.
Qed.

(** C3.  The reset yields the freshly initialized state from every state
    whatever its stage: stage FILE_UPLOAD, no file data, empty goal, task
    type OTHER, empty target column, no model suggestions, empty selected
    model, no error.  So it does as an event of the component over time,
    and a second reset changes nothing more. *)
Theorem reset_yields_initial (a : App.State) :
  App.handleReset a = App.initial
  /\ App.handleReset a
     = App.mkState FILE_UPLOAD None "" OTHER (Some "") JNull "" None
  /\ App.handleReset (App.handleReset a) = App.handleReset a
  /\ forall suspended sent,
       App.state (App.step J (App.mkWorld a suspended sent) App.Reset)
       = App.state App.start.
Proof.
  split; [reflexivity |]. split; [reflexivity |]. split; [reflexivity |].
  intros suspended sent. reflexivity.
Qed.

End GoalSubmission.

(** ** Stepping the component *)

(** The handler suspended last is resumed at the last index. *)
Lemma resolve_newest (J : JSONParse) (s : App.State)
  (l : list (Reply -> Async App.State unit))
  (k : Reply -> Async App.State unit) (reqs : list Request) (r : Reply) :
  App.step J (App.mkWorld s (l ++ [k]) reqs) (App.Resolve (length l) r)
  = App.launch (k r) (App.mkWorld s l reqs).
Proof.
  cbn [App.step App.pending App.state App.sent].
  rewrite list_lookup_middle by reflexivity.
  now rewrite delete_middle, app_nil_r.
Qed.

Lemma reset_world (J : JSONParse) (s : App.State) l reqs :
  App.step J (App.mkWorld s l reqs) App.Reset = App.mkWorld App.initial l reqs.
Proof. reflexivity. Qed.

(** The three shapes of a submission over a file, up to its first
    [await]. *)
Ltac submit_cases fd :=
  unfold App.launch, App.handleGoalSubmit, set,
    geminiService.extractTargetColumn,
    geminiService.generateModelSuggestions, generateContent;
  cbn [bind try_catch run_sync];
  destruct (type fd); [destruct (headers fd) as [?hs|] |];
  cbn [bind try_catch run_sync snd fst App.state App.pending App.sent];
  rewrite ?reset_world; cbn [App.state App.pending App.sent].

(** The reply to the model-suggestion request, resumed at the last index. *)
Ltac resolve_suggestions r :=
  rewrite resolve_newest; unfold App.launch, App.concluded, App.suggestions_of;
  destruct r;
  cbn [bind try_catch run_sync fst snd App.state App.pending App.sent];
  try match goal with
      | |- context [parse_ModelSuggestion ?P ?t] =>
          destruct (parse_ModelSuggestion P t)
      end;
  cbn [bind try_catch run_sync fst snd App.state App.pending App.sent].

(** ** Responses that arrive late *)

Section LateResponses.

Context (J : JSONParse).

Lemma same_inputs_refl (s : App.State) : App.same_inputs s s.
Proof. repeat split. Qed.

Lemma same_inputs_trans (s1 s2 s3 : App.State) :
  App.same_inputs s1 s2 -> App.same_inputs s2 s3 -> App.same_inputs s1 s3.
Proof.
  unfold App.same_inputs. intros (?&?&?&?) (?&?&?&?).
  repeat split; congruence.
Qed.

(** A handler whose updates keep the inputs keeps them up to its next
    [await], and what it leaves suspended does so too. *)
Lemma run_sync_keeps_inputs (m : Async App.State unit) (s : App.State) :
  updates_satisfy App.keeps_inputs m ->
  App.same_inputs s (run_sync m s).1
  /\ match (run_sync m s).2 with
     | Waiting _ k => forall r, updates_satisfy App.keeps_inputs (k r)
     | Ended _ => True
     end.
Proof.
  revert s. induction m as [u | e | f k IH | req k _]; intros s Hm; simpl.
  - split; [apply same_inputs_refl | exact I].
  - split; [apply same_inputs_refl | exact I].
  - destruct Hm as [Hf Hk]. destruct (IH (f s) Hk) as [H1 H2].
    split; [| exact H2]. eapply same_inputs_trans; [apply Hf | exact H1].
  - split; [apply same_inputs_refl | exact Hm].
Qed.

Lemma launch_keeps_inputs (m : Async App.State unit) (w : App.World) :
  updates_satisfy App.keeps_inputs m ->
  App.late_updates_keep_inputs w ->
  App.same_inputs (App.state w) (App.state (App.launch m w))
  /\ App.late_updates_keep_inputs (App.launch m w).
Proof.
  intros Hm Hw. unfold App.launch.
  destruct (run_sync_keeps_inputs m (App.state w) Hm) as [H1 H2].
  destruct (run_sync m (App.state w)) as [s' [o | req k]]; simpl in *.
  - split; assumption.
  - split; [assumption |].
    unfold App.late_updates_keep_inputs in *. simpl.
    apply Forall_app. split; [assumption |]. constructor; [exact H2 | constructor].
Qed.

Lemma updates_satisfy_bind {A B} (P : (App.State -> App.State) -> Prop)
  (m : Async App.State A) (g : A -> Async App.State B) :
  updates_satisfy P m -> (forall a, updates_satisfy P (g a)) ->
  updates_satisfy P (bind m g).
Proof.
  intros Hm Hg. induction m as [a | e | f k IH | req k IH]; simpl in *.
  - apply Hg.
  - exact I.
  - destruct Hm. split; [assumption | now apply IH].
  - intros r. now apply IH.
Qed.

Lemma updates_satisfy_try_catch {A} (P : (App.State -> App.State) -> Prop)
  (m : Async App.State A) (h : string -> Async App.State A) :
  updates_satisfy P m -> (forall e, updates_satisfy P (h e)) ->
  updates_satisfy P (try_catch m h).
Proof.
  intros Hm Hh. induction m as [a | e | f k IH | req k IH]; simpl in *.
  - exact I.
  - apply Hh.
  - destruct Hm. split; [assumption | now apply IH].
  - intros r. now apply IH.
Qed.

Ltac late_updates :=
  repeat match goal with
    | |- updates_satisfy _ (try_catch _ _) => apply updates_satisfy_try_catch
    | |- updates_satisfy _ (bind _ _) => apply updates_satisfy_bind
    | |- updates_satisfy _ (match ?x with _ => _ end) => destruct x
    | |- updates_satisfy _ (SetState _ _) => split
    | |- updates_satisfy _ (Return _) => exact I
    | |- updates_satisfy _ (Throw _) => exact I
    | |- updates_satisfy _ (Await _ _) => cbn [updates_satisfy bind]
    | |- App.keeps_inputs _ => intros ?; repeat split
    | |- forall _, _ => intro
    end.

(** What a submission leaves suspended only performs updates that keep
    the inputs. *)
Lemma handleGoalSubmit_suspended fd goal (s : App.State) :
  match (run_sync (App.handleGoalSubmit J fd goal) s).2 with
  | Waiting _ k => forall r, updates_satisfy App.keeps_inputs (k r)
  | Ended _ => True
  end.
Proof.
  destruct fd as [fd|]; [| exact I].
  unfold App.handleGoalSubmit, set,
    geminiService.extractTargetColumn,
    geminiService.generateModelSuggestions, generateContent.
  cbn [bind try_catch run_sync].
  destruct (type fd); [destruct (headers fd) as [hs|] |];
    cbn [bind try_catch run_sync snd]; late_updates.
Qed.

Lemma step_late_updates (w : App.World) (ev : App.Event) :
  App.late_updates_keep_inputs w ->
  App.late_updates_keep_inputs (App.step J w ev).
Proof.
  intros Hw. destruct ev as [data | goal | model | | i r]; simpl;
    try exact Hw.
  - unfold App.launch.
    pose proof (handleGoalSubmit_suspended
                  (App.fileData (App.state w)) goal (App.state w)) as H.
    destruct (run_sync (App.handleGoalSubmit J (App.fileData (App.state w)) goal)
                (App.state w)) as [s' [o | req k]]; simpl in *.
    + exact Hw.
    + unfold App.late_updates_keep_inputs in *. simpl.
      apply Forall_app. split; [assumption |].
      constructor; [exact H | constructor].
  - destruct (App.pending w !! i) as [k|] eqn:Hk; [| exact Hw].
    apply launch_keeps_inputs.
    + unfold App.late_updates_keep_inputs in Hw.
      rewrite Forall_lookup in Hw. exact (Hw i k Hk r).
    + unfold App.late_updates_keep_inputs in *. simpl.
      apply Forall_delete. exact Hw.
Qed.

Lemma steps_cons (w : App.World) ev evs :
  App.steps J w (ev :: evs) = App.steps J (App.step J w ev) evs.
Proof. reflexivity. Qed.

Lemma steps_late_updates (evs : list App.Event) (w : App.World) :
  App.late_updates_keep_inputs w ->
  App.late_updates_keep_inputs (App.steps J w evs).
Proof.
  revert w. induction evs as [|ev evs IH]; intros w Hw.
  - exact Hw.
  - rewrite steps_cons. apply IH, step_late_updates, Hw.
Qed.

(** The invariant holds of every world the page can be brought to. *)
Lemma reachable_late_updates (w : App.World) :
  App.reachable J w -> App.late_updates_keep_inputs w.
Proof.
  induction 1 as [| w ev _ IH _]; [constructor | now apply step_late_updates].
Qed.

Lemma resolve_keeps_inputs (w : App.World) i r :
  App.late_updates_keep_inputs w ->
  App.same_inputs (App.state w) (App.state (App.step J w (App.Resolve i r))).
Proof.
  intros Hw. simpl.
  destruct (App.pending w !! i) as [k|] eqn:Hk; [| apply same_inputs_refl].
  refine (proj1 (launch_keeps_inputs (k r)
                   (App.mkWorld (App.state w) (delete i (App.pending w))
                      (App.sent w)) _ _)).
  - unfold App.late_updates_keep_inputs in Hw.
    rewrite Forall_lookup in Hw. exact (Hw i k Hk r).
  - unfold App.late_updates_keep_inputs in *. simpl.
    apply Forall_delete. exact Hw.
Qed.

Lemma resolves_keep_inputs (late : list (nat * Reply)) (w : App.World) :
  App.late_updates_keep_inputs w ->
  App.same_inputs (App.state w)
    (App.state (App.steps J w (map (fun ir => App.Resolve ir.1 ir.2) late))).
Proof.
  revert w. induction late as [|[i r] late IH]; intros w Hw.
  - apply same_inputs_refl.
  - cbn [map fst snd]. rewrite steps_cons.
    eapply same_inputs_trans; [apply (resolve_keeps_inputs w i r), Hw |].
    apply IH, step_late_updates, Hw.
Qed.

(** C6, as amended.  The component has no guard against a response of an
    earlier pass: a request pending at a reset still resolves into the
    state.  After any history that leaves a file loaded, a submission and
    then a reset give the initial state with the handler still suspended,
    and its responses are applied to it.  For an image, or a CSV file
    without headers, the one response is that of the model suggestions:
    on success the suggestions are stored with the stage MODEL_SELECTION,
    on failure the error is set with the stage GOAL_INPUT.  For a CSV file
    with headers the first response is that of the target column: a
    rejection sets the error with the stage GOAL_INPUT, an answer writes
    the target column and issues the model-suggestion request, whose
    response is applied in the same way.  In each case the state is no
    longer the initial one once the handler has ended.  What late
    responses leave alone, after any history of events and however many of
    them arrive, are the file data, the goal, the task type and the
    selected model: these keep their initial values.  More generally a
    response never writes these four cells, whenever it arrives. *)
Theorem late_response_keeps_inputs
  (history : list App.Event) (late : list (nat * Reply)) :
  let w0 := App.steps J App.start history in
  let w := App.step J w0 App.Reset in
  let w' := App.steps J w (map (fun ir => App.Resolve ir.1 ir.2) late) in
  App.state w = App.initial
  /\ App.fileData (App.state w') = None
  /\ App.userGoal (App.state w') = ""
  /\ App.taskType (App.state w') = OTHER
  /\ App.selectedModel (App.state w') = ""
  /\ (forall i r,
       App.same_inputs (App.state w0)
         (App.state (App.step J w0 (App.Resolve i r))))
  /\ forall fd goal,
       App.fileData (App.state w0) = Some fd ->
       let i := length (App.pending w0) in
       let w2 := App.step J (App.step J w0 (App.GoalSubmit goal)) App.Reset in
       App.state w2 = App.initial
       /\ length (App.pending w2) = S i
       /\ match type fd, headers fd with
          | csv, Some hs =>
              (let w3 := App.step J w2 (App.Resolve i Rejected) in
               App.state w3 = App.reverted App.initial
               /\ App.state w3 <> App.initial
               /\ App.pending w3 = App.pending w0)
              /\ forall text,
                   let w3 := App.step J w2 (App.Resolve i (Replied text)) in
                   App.state w3
                   = App.setTargetColumn
                       (geminiService.chooseTargetColumn hs text) App.initial
                   /\ length (App.pending w3) = S i
                   /\ forall r,
                        let w4 := App.step J w3 (App.Resolve i r) in
                        App.state w4 = App.concluded J r (App.state w3)
                        /\ App.state w4 <> App.initial
                        /\ App.pending w4 = App.pending w0
          | _, _ =>
              forall r,
                let w3 := App.step J w2 (App.Resolve i r) in
                App.state w3 = App.concluded J r App.initial
                /\ App.state w3 <> App.initial
                /\ App.pending w3 = App.pending w0
          end.
Proof.
  cbv zeta. split; [reflexivity |].
  assert (Hw0 : App.late_updates_keep_inputs (App.steps J App.start history)).
  { apply steps_late_updates. constructor. }
  set (w := App.step J (App.steps J App.start history) App.Reset).
  assert (Hw : App.late_updates_keep_inputs w).
  { apply step_late_updates, Hw0. }
  destruct (resolves_keep_inputs late w Hw) as (H1 & H2 & H3 & H4).
  rewrite H1, H2, H3, H4.
  repeat (split; [reflexivity |]).
  split; [intros i r; apply (resolve_keeps_inputs _ i r Hw0) |].
  clear. generalize (App.steps J App.start history). intros w0 fd goal Hfd.
  split; [reflexivity |].
  change (App.step J w0 (App.GoalSubmit goal))
    with (App.launch (App.handleGoalSubmit J (App.fileData (App.state w0)) goal)
            w0).
  rewrite Hfd. submit_cases fd.
  - split; [rewrite length_app; cbn; lia |].
    split.
    + rewrite resolve_newest. unfold App.launch.
      cbn [bind try_catch run_sync fst snd App.state App.pending App.sent].
      split; [reflexivity |]. split; [discriminate | reflexivity].
    + intros text. rewrite resolve_newest. unfold App.launch.
      cbn [bind try_catch run_sync fst snd App.state App.pending App.sent].
      split; [reflexivity |].
      split; [rewrite length_app; cbn; lia |].
      intros r. resolve_suggestions r;
        (split; [reflexivity |]); (split; [discriminate | reflexivity]).
  - split; [rewrite length_app; cbn; lia |].
    intros r. resolve_suggestions r;
      (split; [reflexivity |]); (split; [discriminate | reflexivity]).
  - split; [rewrite length_app; cbn; lia |].
    intros r. resolve_suggestions r;
      (split; [reflexivity |]); (split; [discriminate | reflexivity]).
Qed.
End LateResponses.

(** ** The request client and the file upload *)

Section RequestClient.

Lemma array_includes_spec (hs : list string) (x : string) :
  JS.array_includes hs x = true <-> x ∈ hs.
Proof.
  unfold JS.array_includes. rewrite existsb_exists. split.
  - intros [y [Hin Heq]]. apply String.eqb_eq in Heq. subst y.
    now apply list_elem_of_In.
  - intros Hin. exists x. split; [now apply list_elem_of_In | apply String.eqb_refl].
Qed.

Lemma index_last {A} (xs : list A) :
  xs <> [] -> JS.index xs (Z.of_nat (length xs) - 1) = last xs.
Proof.
  intros Hne. unfold JS.index.
  destruct xs as [|x xs]; [contradiction |].
  replace (Z.of_nat (length (x :: xs)) - 1 <? 0)%Z with false
    by (symmetry; apply Z.ltb_ge; simpl length; lia).
  rewrite last_lookup. f_equal. simpl length. lia.
Qed.

(** The column chosen is a header as soon as there is one. *)
Lemma chooseTargetColumn_member (hs : list string) (text : string) :
  hs <> [] ->
  exists col, geminiService.chooseTargetColumn hs text = Some col /\ col ∈ hs.
Proof.
  intros Hne. unfold geminiService.chooseTargetColumn. cbv zeta.
  destruct (JS.array_includes hs (JS.remove_all dquote (JS.trim text))) eqn:Hin.
  - eexists. split; [reflexivity | now apply array_includes_spec].
  - rewrite index_last by assumption.
    destruct (last hs) as [col|] eqn:Hlast.
    + exists col. split; [reflexivity |].
      rewrite last_lookup in Hlast. eapply list_elem_of_lookup_2, Hlast.
    + apply last_None in Hlast. contradiction.
Qed.

(** C2, as amended.  For every goal, every list of column names that is
    not empty and every text the service answers with, the call returns
    a member of the list: the answer trimmed and stripped of its double
    quotes when that is in the list, and the last element of the list
    otherwise.  One request is issued and the state is left alone. *)
Theorem extractTargetColumn_member {St} (svc : Request -> Reply)
  (goal : string) (hs : list string) (text : string) (s : St)
  (sent : list Request) :
  hs <> [] ->
  svc (ReqTargetColumn goal hs) = Replied text ->
  exists col,
    run svc (geminiService.extractTargetColumn goal hs) s sent
    = (s, (sent ++ [ReqTargetColumn goal hs])%list, Returned (Some col))
    /\ col ∈ hs
    /\ let cleaned := JS.remove_all dquote (JS.trim text) in
       (cleaned ∈ hs -> col = cleaned)
       /\ (cleaned ∉ hs -> last hs = Some col).
Proof.
  intros Hne Hsvc.
  destruct (chooseTargetColumn_member hs text Hne) as [col [Hcol Hin]].
  exists col. split; [| split; [exact Hin |]].
  - unfold geminiService.extractTargetColumn, generateContent.
    cbn [bind run]. rewrite Hsvc. cbn [bind run]. now rewrite Hcol.
  - cbv zeta. unfold geminiService.chooseTargetColumn in Hcol.
    cbv zeta in Hcol. split; intros Hc.
    + apply array_includes_spec in Hc. rewrite Hc in Hcol. congruence.
    + destruct (JS.array_includes hs (JS.remove_all dquote (JS.trim text)))
        eqn:Hinc.
      * apply array_includes_spec in Hinc. contradiction.
      * now rewrite index_last in Hcol.
Qed.

Lemma derive_headers_spec (content : string) :
  FileUpload.derive_headers content = Some (Spec.columnNames content).
Proof.
  unfold FileUpload.derive_headers. cbv zeta.
  now rewrite split_newline_head.
Qed.

(** C5, as amended.  For every content the headers derived by the upload
    are the first line (the characters before the first line feed) split
    on commas, each field trimmed and then stripped of double quotes; the
    content whose first line is a, then b between double quotes, then c,
    and whose second line is row1 gives a, b, c.  The list
    derived is never empty: an empty content gives one empty name.  A
    dropped file of type text/csv, read as text, is accepted with these
    headers. *)
Theorem headers_from_first_line (content : string) :
  FileUpload.derive_headers content = Some (Spec.columnNames content)
  /\ Spec.columnNames content <> []
  /\ FileUpload.derive_headers Examples.abc_csv = Some ["a"; "b"; "c"]
  /\ FileUpload.derive_headers "" = Some [""]
  /\ forall file_name read,
       let file := FileUpload.mkFile file_name "text/csv" in
       read file FileUpload.AsText = Some content ->
       FileUpload.onDrop [file] read
       = (None,
          Some (mkFileData file_name csv content
                  (Some (Spec.columnNames content)))).
Proof.
  split; [apply derive_headers_spec |].
  split.
  { unfold Spec.columnNames. intros H. apply map_eq_nil in H.
    exact (split_not_nil _ _ H). }
  split; [reflexivity |]. split; [reflexivity |].
  intros file_name read file Hread.
  unfold FileUpload.onDrop, FileUpload.onload. subst file.
  cbn [FileUpload.file_type FileUpload.file_name].
  change (JS.startsWith "image/" "text/csv") with false.
  change (String.eqb "text/csv" "text/csv") with true.
  cbn [negb andb orb]. rewrite Hread, derive_headers_spec. reflexivity.
Qed.

(** *** The numeric hint *)

Lemma code_units_complete (c : ascii) : In c JS.code_units.
Proof.
  unfold JS.code_units. rewrite <- (ascii_nat_embedding c).
  apply in_map, in_seq. pose proof (nat_ascii_bounded c). lia.
Qed.

(** Folding a letter of the pattern and a code unit of the subject to the
    same canonical form is comparing the letter with the lower-case form
    of the code unit; checked on the 256 times 256 pairs. *)
Lemma canonicalize_lower (a b : ascii) :
  JS.is_ascii_lower a = true ->
  (JS.canonicalize a =? JS.canonicalize b)%N = Ascii.eqb a (JS.lower_char b).
Proof.
  assert (Hall :
    forallb (fun a =>
      forallb (fun b =>
        implb (JS.is_ascii_lower a)
          (Bool.eqb (JS.canonicalize a =? JS.canonicalize b)%N
             (Ascii.eqb a (JS.lower_char b))))
        JS.code_units) JS.code_units = true)
    by (vm_compute; reflexivity).
  intros Ha. rewrite forallb_forall in Hall.
  specialize (Hall a (code_units_complete a)).
  rewrite forallb_forall in Hall.
  specialize (Hall b (code_units_complete b)).
  rewrite Ha in Hall. simpl in Hall. now apply Bool.eqb_prop in Hall.
Qed.

Lemma match_literal_i_lower (lit s : string) :
  JS.all_ascii_lower lit = true ->
  JS.match_literal_i lit s = JS.startsWith lit (JS.toLowerCase s).
Proof.
  revert s. induction lit as [|a lit IH]; intros s Hlit; [reflexivity |].
  simpl in Hlit. apply andb_true_iff in Hlit as [Ha Hlit].
  destruct s as [|b s]; [reflexivity |]. simpl.
  now rewrite canonicalize_lower, IH.
Qed.

Lemma existsb_match_literal_i (alts : list string) (s : string) :
  forallb JS.all_ascii_lower alts = true ->
  existsb (fun lit => JS.match_literal_i lit s) alts
  = existsb (fun lit => JS.startsWith lit (JS.toLowerCase s)) alts.
Proof.
  induction alts as [|lit alts IH]; intros Halts; [reflexivity |].
  simpl in Halts. apply andb_true_iff in Halts as [Hlit Halts].
  simpl. now rewrite match_literal_i_lower, IH.
Qed.

Lemma existsb_orb {A} (f g : A -> bool) (l : list A) :
  existsb (fun x => f x || g x) l = existsb f l || existsb g l.
Proof.
  induction l as [|x l IH]; [reflexivity |]. simpl. rewrite IH.
  destruct (f x), (g x), (existsb f l); reflexivity.
Qed.

Lemma regex_test_alt_i_lower (alts : list string) (s : string) :
  forallb JS.all_ascii_lower alts = true ->
  JS.regex_test_alt_i alts s
  = existsb (fun lit => JS.includes lit (JS.toLowerCase s)) alts.
Proof.
  intros Halts. induction s as [|c s IH].
  - cbn [JS.regex_test_alt_i].
    rewrite orb_false_r, existsb_match_literal_i by assumption.
    clear Halts. induction alts as [|lit alts IHa]; [reflexivity |].
    cbn [existsb JS.toLowerCase JS.includes] in *.
    now rewrite IHa, orb_false_r.
  - cbn [JS.regex_test_alt_i JS.toLowerCase JS.includes].
    rewrite existsb_orb, IH, existsb_match_literal_i by assumption.
    reflexivity.
Qed.

(** The pattern of the code against the wording of the specification. *)
Lemma numeric_hint_spec (header : string) :
  geminiService.numeric_hint header = true <->
  Spec.contains_any (JS.toLowerCase header) Spec.numeric_hint_words.
Proof.
  unfold geminiService.numeric_hint.
  rewrite regex_test_alt_i_lower by reflexivity.
  unfold Spec.contains_any. rewrite existsb_exists, Exists_exists.
  change Spec.numeric_hint_words with geminiService.numeric_words.
  split; intros [w [Hin Hw]]; exists w.
  - split; [now apply list_elem_of_In | now apply includes_spec].
  - split; [now apply list_elem_of_In | now apply includes_spec].
Qed.

(** An assignment to a plain object and the own properties after it. *)
Lemma assign_lookup {A} (k : string) (v : A) (m : gmap string A) (h : string) :
  JS.assign k v m !! h
  = if decide (k = h /\ h <> "__proto__") then Some v else m !! h.
Proof.
  unfold JS.assign. destruct (String.eqb k "__proto__") eqn:Hk.
  - apply String.eqb_eq in Hk. rewrite decide_False; [reflexivity |].
    intros [-> H]. contradiction.
  - apply String.eqb_neq in Hk. destruct (decide (k = h)) as [->|Hne].
    + rewrite decide_True by (split; [reflexivity | assumption]).
      apply lookup_insert_eq.
    + rewrite decide_False by (intros [? _]; contradiction).
      now apply lookup_insert_ne.
Qed.

Lemma schema_fold_lookup (l : list string) (acc : gmap string SchemaType)
  (h : string) :
  foldl (fun acc header =>
           if geminiService.numeric_hint header then JS.assign header NUMBER acc
           else JS.assign header STRING acc) acc l !! h
  = if decide (h ∈ l /\ h <> "__proto__")
    then Some (geminiService.hint_type h) else acc !! h.
Proof.
  revert acc. induction l as [|x l IH]; intros acc.
  - simpl. destruct (decide (h ∈ [] /\ h <> "__proto__")) as [[Hin _]|];
      [| reflexivity].
    now apply elem_of_nil in Hin.
  - cbn [foldl]. rewrite IH.
    destruct (decide (h ∈ l /\ h <> "__proto__")) as [[Hl Hp]|Hl].
    + rewrite decide_True by (split; [now right | assumption]). reflexivity.
    + assert (Hx : (if geminiService.numeric_hint x
                    then JS.assign x NUMBER acc else JS.assign x STRING acc)
                   !! h
                   = if decide (x = h /\ h <> "__proto__")
                     then Some (geminiService.hint_type x) else acc !! h).
      { unfold geminiService.hint_type.
        destruct (geminiService.numeric_hint x); apply assign_lookup. }
      rewrite Hx. destruct (decide (x = h /\ h <> "__proto__")) as [[-> Hp]|Hne].
      * rewrite decide_True by (split; [now left | assumption]). reflexivity.
      * rewrite decide_False; [reflexivity |].
        intros [Hc Hp]. apply elem_of_cons in Hc as [->|Hc].
        -- apply Hne. now split.
        -- apply Hl. now split.
Qed.

Lemma strict_neq_spec (h : string) (target : option string) :
  geminiService.strict_neq h target = true <-> target <> Some h.
Proof.
  destruct target as [t|]; simpl; [| split; [discriminate | reflexivity]].
  rewrite negb_true_iff, String.eqb_neq. split; intros H; congruence.
Qed.


End RequestClient.

(** ** The results dashboard *)

Section Dashboard.

Context (J : JSONParse).

Import ResultsDashboard.

(** The cells of the dashboard once [fetchAllData] has ended, from the
    replies to its two requests. *)
Lemma run_fetchAllData svc (p : Props) (fd : FileData) (s : State) sent :
  fileData p = Some fd ->
  let s1 := setIsLoading (with_explanation true) s in
  let s2 := match svc (explanation_request p fd) with
            | Rejected => setError (Some explanation_failed) s1
            | Replied exp => setExplanation exp s1
            end in
  let s3 := setIsLoading (with_metrics true)
              (setIsLoading (with_explanation false) s2) in
  let s4 := match metrics_of J (svc (metrics_request p)) with
            | Some mets => setMetrics mets s3
            | None => setError (Some metrics_failed) s3
            end in
  run svc (fetchAllData J p) s sent
  = (setIsLoading (with_metrics false) s4,
     ((sent ++ [explanation_request p fd]) ++ [metrics_request p])%list,
     Returned tt).
Proof.
  intros Hfd. cbv zeta.
  unfold fetchAllData, explanation_request, metrics_request, metrics_of, set,
    geminiService.generateWorkflowExplanation, geminiService.generateMetrics,
    generateContent.
  rewrite Hfd. cbn [bind try_catch try_finally run].
  destruct (svc (geminiService.explanation_request _ _ _ _ _)) as [|exp];
    cbn [bind try_catch try_finally run];
    (destruct (svc (ReqMetrics _ _ _)) as [|text];
     cbn [bind try_catch try_finally run];
     [reflexivity |
      destruct (parse_Metrics J (JS.trim text));
      cbn [bind try_catch try_finally run]; reflexivity]).
Qed.

(** A handler of the mounted dashboard acts on the cells of the dashboard
    and on nothing else of the page. *)
Lemma run_mounted {A} svc (m : Async State A) (a : App.State) (s : State) sent :
  run svc (mounted m) (mkPage a s) sent
  = (mkPage a (run svc m s sent).1.1,
     (run svc m s sent).1.2, (run svc m s sent).2).
Proof.
  revert s sent. induction m as [x | e | f k IH | req k IH]; intros s sent;
    cbn [mounted run]; try reflexivity.
  - unfold on_dashboard. cbn [page_app page_dashboard]. apply IH.
  - apply IH.
Qed.

Lemma some_value_blank_spec (inputs : gmap string string) :
  some_value_blank inputs = true <->
  exists k v, inputs !! k = Some v /\ JS.trim v = "".
Proof.
  unfold some_value_blank. rewrite existsb_exists. split.
  - intros [[k v] [Hin Hv]]. exists k, v. split.
    + now apply elem_of_map_to_list, list_elem_of_In.
    + simpl in Hv. now destruct (JS.trim v).
  - intros (k & v & Hkv & Hv). exists (k, v). split.
    + now apply list_elem_of_In, elem_of_map_to_list.
    + simpl. now rewrite Hv.
Qed.

Lemma react_child_scalars (l : list (string * Scalar)) :
  forallb (fun kv => JSValue.react_child kv.2)
    (map (fun kv => (kv.1, JSON_of_Scalar kv.2)) l) = true.
Proof.
  induction l as [|[k [t|t]] l IH]; [reflexivity | exact IH | exact IH].
Qed.

(** A cell of a matrix of numbers is read without an exception exactly
    when its row exists. *)
Lemma matrix_cell_numbers (rows : list (list string)) (i j : nat) :
  matrix_cell (JArray (map (fun row => JArray (map JNumber row)) rows)) i j
  = bool_decide (i < length rows).
Proof.
  unfold matrix_cell. cbn [JSValue.at_index].
  rewrite list_lookup_fmap.
  destruct (rows !! i) as [row|] eqn:Hrow; cbn [fmap option_fmap option_map].
  - rewrite bool_decide_eq_true_2 by (eapply lookup_lt_Some, Hrow).
    cbn [JSValue.at_index]. rewrite list_lookup_fmap.
    destruct (row !! j); reflexivity.
  - apply lookup_ge_None in Hrow. rewrite bool_decide_eq_false_2 by lia.
    reflexivity.
Qed.

(** The grid is built for a value of the shape of [Metrics] exactly when
    its confusion matrix, if it has one, has two rows or more. *)
Lemma grid_builds_Metrics (m : Metrics) :
  grid_builds (JSON_of_Metrics m)
  = match confusion_matrix m with
    | Some rows => bool_decide (2 <= length rows)
    | None => true
    end.
Proof.
  unfold grid_builds, JSON_of_Metrics.
  cbn [JSValue.field JSValue.lookup_field].
  change (String.eqb "metrics" "metrics") with true.
  change (String.eqb "metrics" "confusion_matrix") with false. cbv iota.
  cbn [JSValue.Object_entries].
  rewrite react_child_scalars. cbn [andb].
  destruct (confusion_matrix m) as [rows|]; [| reflexivity].
  cbn [JSValue.lookup_field].
  change (String.eqb "confusion_matrix" "confusion_matrix") with true.
  cbv iota. cbn [JSValue.truthy]. rewrite !matrix_cell_numbers.
  destruct (decide (2 <= length rows)) as [H|H].
  - rewrite !bool_decide_eq_true_2 by lia. reflexivity.
  - rewrite (bool_decide_eq_false_2 (1 < length rows)) by lia.
    rewrite (bool_decide_eq_false_2 (2 <= length rows)) by lia.
    now rewrite !andb_false_r.
Qed.


(** C8.  When some value of the test inputs is empty after trimming,
    [handleTestModel] only sets the error to the message asking to fill
    in all fields (a non-empty text), issues no request and ends; the
    test button is then disabled as well.  A prediction request is
    issued only when every value is non-empty after trimming, and then
    exactly one is issued, with the inputs as they are. *)
Theorem test_model_requires_all_inputs svc (p : Props) (d : State) :
  let inputs := testInputValues d in
  let result := run svc (handleTestModel p inputs) d [] in
  ((exists k v, inputs !! k = Some v /\ JS.trim v = "") ->
   result = (setError (Some incomplete_input) d, [], Returned tt)
   /\ incomplete_input <> ""
   /\ isTestButtonDisabled d = true)
  /\ (result.1.2 <> [] ->
      forall k v, inputs !! k = Some v -> JS.trim v <> "")
  /\ ((forall k v, inputs !! k = Some v -> JS.trim v <> "") ->
      result.1.2
      = [ReqPrediction (userGoal p) (selectedModel p) inputs
           (fileData_headers (fileData p))]
      /\ result.2 = Returned tt).
Proof.
  intros inputs result. unfold result, handleTestModel.
  destruct (some_value_blank inputs) eqn:Hblank.
  - apply some_value_blank_spec in Hblank as Hex.
    split; [| split].
    + intros _. split; [reflexivity |]. split; [discriminate |].
      unfold isTestButtonDisabled. fold inputs. now rewrite Hblank.
    + intros Hsent. now contradiction Hsent.
    + intros Hall. destruct Hex as (k & v & Hkv & Hv).
      now destruct (Hall k v Hkv).
  - assert (Hall : forall k v, inputs !! k = Some v -> JS.trim v <> "").
    { intros k v Hkv Hv.
      assert (some_value_blank inputs = true) as Ht
        by (apply some_value_blank_spec; eauto).
      congruence. }
    split; [| split].
    + intros (k & v & Hkv & Hv). now destruct (Hall k v Hkv).
    + intros _. exact Hall.
    + intros _. unfold set, geminiService.generatePrediction, generateContent.
      cbn [bind try_catch try_finally run].
      destruct (svc _); cbn [bind try_catch try_finally run];
        split; reflexivity.
Qed.

End Dashboard.

(** ** Concrete runs *)

(** The classifier on three goals: both a classification and a regression
    keyword, a regression keyword only, no keyword. *)
Lemma classifyTask_keywords_witness :
  App.classifyTask "please classify users and predict churn" = CLASSIFICATION
  /\ App.classifyTask "Forecast monthly sales" = REGRESSION
  /\ App.classifyTask "Cluster the customers" = OTHER.
Proof.
  split; [| split].
  - refine (proj1 (proj2 (proj2 (proj2
      (classifyTask_keywords Examples.parser
         "please classify users and predict churn")))) _ _).
    + apply includes_spec. vm_compute. reflexivity.
    + apply includes_spec. vm_compute. reflexivity.
  - refine (proj1 (proj2
      (classifyTask_keywords Examples.parser "Forecast monthly sales")) _ _).
    + intros H. apply contains_any_classification in H. vm_compute in H.
      discriminate H.
    + apply contains_any_regression. vm_compute. reflexivity.
  - refine (proj1 (proj2 (proj2
      (classifyTask_keywords Examples.parser "Cluster the customers"))) _ _).
    + intros H. apply contains_any_classification in H. vm_compute in H.
      discriminate H.
    + intros H. apply contains_any_regression in H. vm_compute in H.
      discriminate H.
Defined.

(** A CSV file, the target column identified, the model suggestions
    unparsable. *)
Lemma goal_failure_reverts_witness :
  let a := App.handleFileAccepted Examples.sales_csv App.initial in
  let goal := "Forecast monthly sales" in
  App.suggestions_failed Examples.parser Examples.service_no_suggestions
    Examples.sales_csv goal
  /\ exists a' sent,
       run Examples.service_no_suggestions
         (App.handleGoalSubmit Examples.parser (App.fileData a) goal) a []
       = (a', sent, Returned tt)
       /\ App.appState a' = GOAL_INPUT
       /\ App.error a' = Some App.retry_message
       /\ App.retry_message <> ""
       /\ App.userGoal a' = goal
       /\ App.targetColumn a'
          = App.committed_target Examples.service_no_suggestions
              Examples.sales_csv goal (App.targetColumn a)
       /\ App.taskType a' = App.classifyTask goal
       /\ App.modelSuggestions a' = App.modelSuggestions a
       /\ App.selectedModel a' = App.selectedModel a
       /\ App.fileData a' = App.fileData a.
Proof.
  cbv zeta. split; [vm_compute; reflexivity |].
  apply (goal_failure_reverts Examples.parser Examples.service_no_suggestions
           (App.handleFileAccepted Examples.sales_csv App.initial)
           Examples.sales_csv "Forecast monthly sales").
  - reflexivity.
  - right. vm_compute. reflexivity.
Defined.

(** C1 as stated fails: after a submission whose model-suggestion request
    is rejected, the stage is back to GOAL_INPUT but the task type derived
    in the attempt is kept (CLASSIFICATION), it is not the one held before
    the attempt (OTHER): not every other partial result is discarded. *)
Lemma goal_failure_keeps_task_type :
  let a := App.handleFileAccepted Examples.cats_png App.initial in
  let goal := "classify cats and dogs" in
  let a' :=
    (run Examples.service_down
       (App.handleGoalSubmit Examples.parser (App.fileData a) goal) a []).1.1 in
  App.suggestions_failed Examples.parser Examples.service_down
    Examples.cats_png goal
  /\ App.appState a' = GOAL_INPUT
  /\ App.taskType a = OTHER
  /\ App.taskType a' = CLASSIFICATION
  /\ App.taskType a' <> App.taskType a.
Proof.
  cbv zeta. split; [exact I |]. split; [reflexivity |].
  split; [reflexivity |]. split; [reflexivity |]. discriminate.
Defined.

(** No file: the submission is a no-op of the initial state. *)
Lemma goal_submit_without_file_witness :
  App.fileData App.initial = None
  /\ run Examples.service_up
       (App.handleGoalSubmit Examples.parser (App.fileData App.initial)
          "classify cats and dogs") App.initial []
     = (App.initial, [], Returned tt)
  /\ App.step Examples.parser App.start (App.GoalSubmit "classify cats and dogs")
     = App.start.
Proof.
  split; [reflexivity |].
  destruct (goal_submit_without_file Examples.parser Examples.service_up
              App.initial "classify cats and dogs" [] eq_refl) as [Hrun Hstep].
  split; [exact Hrun | apply Hstep; reflexivity].
Defined.

(** C6 as stated fails.  An image is accepted, a goal is submitted, the
    reset is issued while the model-suggestion request is pending (the
    state is the initial one), and the request then resolves: the stage
    becomes MODEL_SELECTION and the suggestions are stored.  With a CSV
    file the late answer of the identification overwrites the target
    column.  Every event is one the page offers when it happens. *)
Lemma late_response_applied_after_reset :
  let J := Examples.parser in
  let goal := "classify cats and dogs" in
  let w1 := App.step J App.start (App.FileAccepted Examples.cats_png) in
  let w2 := App.step J w1 (App.GoalSubmit goal) in
  let w3 := App.step J w2 App.Reset in
  let w4 := App.step J w3 (App.Resolve 0 (Replied Examples.suggestion_text)) in
  let v1 := App.step J App.start (App.FileAccepted Examples.sales_csv) in
  let v2 := App.step J v1 (App.GoalSubmit "Forecast monthly sales") in
  let v3 := App.step J v2 App.Reset in
  let v4 := App.step J v3 (App.Resolve 0 (Replied "amount")) in
  App.enabled App.start (App.FileAccepted Examples.cats_png) = true
  /\ App.enabled w1 (App.GoalSubmit goal) = true
  /\ App.enabled w2 App.Reset = true
  /\ App.enabled w3 (App.Resolve 0 (Replied Examples.suggestion_text)) = true
  /\ App.state w3 = App.initial
  /\ App.appState (App.state w4) = MODEL_SELECTION
  /\ App.modelSuggestions (App.state w4)
     = JSON_of_ModelSuggestion (mkModelSuggestion "XGBoost" [] [])
  /\ App.state w4 <> App.initial
  /\ App.state v3 = App.initial
  /\ App.targetColumn (App.state v4) = Some "amount"
  /\ App.state v4 <> App.initial.
Proof.
  cbv zeta. repeat (split; [vm_compute; reflexivity |]).
  split; [discriminate |].
  repeat (split; [vm_compute; reflexivity |]). discriminate.
Defined.

(** The sales table is loaded, a goal is submitted and the page is reset:
    the answer to the identification of the target column is written into
    the fresh state, and so is the failure of the model suggestions. *)
Lemma late_response_keeps_inputs_witness :
  let J := Examples.parser in
  let w0 := App.steps J App.start [App.FileAccepted Examples.sales_csv] in
  let w2 :=
    App.step J (App.step J w0 (App.GoalSubmit "Forecast monthly sales"))
      App.Reset in
  let w3 := App.step J w2 (App.Resolve 0 (Replied "amount")) in
  let w4 := App.step J w3 (App.Resolve 0 Rejected) in
  App.fileData (App.state w0) = Some Examples.sales_csv
  /\ App.state w2 = App.initial
  /\ App.state w3 = App.setTargetColumn (Some "amount") App.initial
  /\ App.state w4
     = App.mkState GOAL_INPUT None "" OTHER (Some "amount") JNull ""
         (Some App.retry_message)
  /\ App.state w4 <> App.initial
  /\ App.pending w4 = [].
Proof.
  cbv zeta.
  destruct (late_response_keeps_inputs Examples.parser
              [App.FileAccepted Examples.sales_csv] [])
    as (_ & _ & _ & _ & _ & _ & Happlied).
  destruct (Happlied Examples.sales_csv "Forecast monthly sales" eq_refl)
    as (Hreset & _ & _ & Hanswer).
  destruct (Hanswer "amount") as (Htarget & _ & Hsuggestions).
  destruct (Hsuggestions Rejected) as (Hstate & Hchanged & Hpending).
  split; [reflexivity |]. split; [exact Hreset |].
  split; [exact Htarget |].
  split; [exact Hstate |].
  split; [exact Hchanged | exact Hpending].
Defined.

(** The column named by the service between double quotes is a header; a
    column that is no header is replaced by the last header. *)
Lemma extractTargetColumn_member_witness :
  let hs := ["date"; "region"; "amount"] in
  hs <> []
  /\ (exists col,
        run Examples.service_up
          (geminiService.extractTargetColumn "Forecast monthly sales" hs) tt []
        = (tt, [ReqTargetColumn "Forecast monthly sales" hs],
           Returned (Some col))
        /\ col ∈ hs
        /\ let cleaned := JS.remove_all dquote (JS.trim (Examples.quoted "amount")) in
           (cleaned ∈ hs -> col = cleaned)
           /\ (cleaned ∉ hs -> last hs = Some col)).
Proof.
  cbv zeta. split; [discriminate |].
  apply (extractTargetColumn_member Examples.service_up
           "Forecast monthly sales" ["date"; "region"; "amount"]
           (Examples.quoted "amount") tt []).
  - discriminate.
  - reflexivity.
Defined.

(** C2 as stated fails on the empty list of column names: the call returns
    [undefined], which is no member of the list. *)
Lemma extractTargetColumn_no_headers :
  run (fun _ => Replied "price")
    (geminiService.extractTargetColumn "predict the price" []) tt []
  = (tt, [ReqTargetColumn "predict the price" []], Returned None)
  /\ ~ exists col,
         (run (fun _ => Replied "price")
            (geminiService.extractTargetColumn "predict the price" []) tt []).2
         = Returned (Some col)
         /\ col ∈ ([] : list string).
Proof.
  split; [reflexivity |].
  intros [col [H _]]. discriminate H.
Defined.

(** The specification's example, dropped as a file of type text/csv. *)
Lemma headers_from_first_line_witness :
  let file := FileUpload.mkFile "abc.csv" "text/csv" in
  FileUpload.onDrop [file] (fun _ _ => Some Examples.abc_csv)
  = (None,
     Some (mkFileData "abc.csv" csv Examples.abc_csv
             (Some (Spec.columnNames Examples.abc_csv))))
  /\ Spec.columnNames Examples.abc_csv = ["a"; "b"; "c"].
Proof.
  cbv zeta. split; [| reflexivity].
  apply (headers_from_first_line Examples.abc_csv). reflexivity.
Defined.

(** C5 as stated fails on the empty content: the headers derived are one
    empty name, not the empty list; so they are for an empty CSV file that
    is dropped. *)
Lemma headers_of_empty_content :
  FileUpload.derive_headers "" = Some [""]
  /\ FileUpload.derive_headers "" <> Some []
  /\ (FileUpload.onDrop [FileUpload.mkFile "empty.csv" "text/csv"]
        (fun _ _ => Some "")).2
     = Some (mkFileData "empty.csv" csv "" (Some [""])).
Proof.
  split; [reflexivity |]. split; [discriminate | reflexivity].
Defined.





(** One of two inputs is blank. *)
Lemma test_model_requires_all_inputs_witness :
  let p := ResultsDashboard.mkProps "Forecast monthly sales" "XGBoost"
             (Some Examples.sales_csv) REGRESSION (Some "amount") in
  let d :=
    ResultsDashboard.setTestInputValues
      (<["date" := "2024-02"]> (<["region" := "  "]> ∅))
      ResultsDashboard.initial in
  (exists k v, ResultsDashboard.testInputValues d !! k = Some v
               /\ JS.trim v = "")
  /\ run Examples.service_up
       (ResultsDashboard.handleTestModel p (ResultsDashboard.testInputValues d))
       d []
     = (ResultsDashboard.setError (Some ResultsDashboard.incomplete_input) d,
        [], Returned tt).
Proof.
  cbv zeta.
  assert (H : exists k v,
             (<["date" := "2024-02"]> (<["region" := "  "]> ∅)
                : gmap string string) !! k = Some v /\ JS.trim v = "").
  { exists "region", "  ". split; [vm_compute; reflexivity | reflexivity]. }
  split; [exact H |].
  apply (test_model_requires_all_inputs Examples.service_up
           (ResultsDashboard.mkProps "Forecast monthly sales" "XGBoost"
              (Some Examples.sales_csv) REGRESSION (Some "amount"))
           (ResultsDashboard.setTestInputValues
              (<["date" := "2024-02"]> (<["region" := "  "]> ∅))
              ResultsDashboard.initial)).
  exact H.
Defined.

(** * Further properties of the code *)

(** ** More on strings *)

Section MoreStrings.

Lemma trimStart_length (s : string) :
  String.length (JS.trimStart s) <= String.length s.
Proof.
  induction s as [|c s IH]; simpl; [lia |].
  destruct (JS.is_white_space c); simpl; lia.
Qed.

Lemma trimStart_fixed_head (c : ascii) (s : string) :
  JS.trimStart (String c s) = String c s -> JS.is_white_space c = false.
Proof.
  simpl. destruct (JS.is_white_space c); [| reflexivity].
  intros H. pose proof (trimStart_length s) as Hl. rewrite H in Hl.
  simpl in Hl. lia.
Qed.

Lemma trimStart_idem (s : string) :
  JS.trimStart (JS.trimStart s) = JS.trimStart s.
Proof.
  induction s as [|c s IH]; [reflexivity |]. simpl.
  destruct (JS.is_white_space c) eqn:Hc; [exact IH |]. simpl. now rewrite Hc.
Qed.

Lemma trimEnd_keeps_start (s : string) :
  JS.trimStart s = s -> JS.trimStart (JS.trimEnd s) = JS.trimEnd s.
Proof.
  destruct s as [|c s]; [reflexivity |]. intros H.
  apply trimStart_fixed_head in H. simpl. rewrite H. simpl. now rewrite H.
Qed.

Lemma trimEnd_idem (s : string) : JS.trimEnd (JS.trimEnd s) = JS.trimEnd s.
Proof.
  induction s as [|c s IH]; [reflexivity |]. simpl.
  destruct (JS.is_white_space c && JS.is_empty (JS.trimEnd s)) eqn:Hc;
    [reflexivity |].
  simpl. now rewrite IH, Hc.
Qed.

Lemma trim_idem (s : string) : JS.trim (JS.trim s) = JS.trim s.
Proof.
  unfold JS.trim.
  rewrite (trimEnd_keeps_start (JS.trimStart s)) by apply trimStart_idem.
  apply trimEnd_idem.
Qed.

Lemma trimStart_all_white_space (pad : string) :
  JS.all_white_space pad = true -> JS.trimStart pad = "".
Proof.
  induction pad as [|c pad IH]; [reflexivity |]. simpl.
  intros H. apply andb_true_iff in H as [Hc Hp]. rewrite Hc. now apply IH.
Qed.

Lemma trimEnd_all_white_space (pad : string) :
  JS.all_white_space pad = true -> JS.trimEnd pad = "".
Proof.
  induction pad as [|c pad IH]; [reflexivity |]. simpl.
  intros H. apply andb_true_iff in H as [Hc Hp]. now rewrite Hc, IH.
Qed.

Lemma trimStart_pad (pad s : string) :
  JS.all_white_space pad = true -> JS.trimStart (pad +:+ s) = JS.trimStart s.
Proof.
  induction pad as [|c pad IH]; [reflexivity |].
  intros H. cbn [JS.all_white_space] in H.
  apply andb_true_iff in H as [Hc Hp].
  rewrite append_cons. cbn [JS.trimStart]. rewrite Hc. now apply IH.
Qed.

Lemma trimEnd_pad (s pad : string) :
  JS.all_white_space pad = true -> JS.trimEnd (s +:+ pad) = JS.trimEnd s.
Proof.
  intros Hp. induction s as [|c s IH].
  - rewrite append_nil. now apply trimEnd_all_white_space.
  - rewrite append_cons. simpl. now rewrite IH.
Qed.

Lemma trim_pad (pad1 s pad2 : string) :
  JS.all_white_space pad1 = true -> JS.all_white_space pad2 = true ->
  JS.trim (pad1 +:+ s +:+ pad2) = JS.trim s.
Proof.
  intros H1 H2. unfold JS.trim. rewrite trimStart_pad by assumption.
  induction s as [|c s IH].
  - rewrite append_nil, trimStart_all_white_space by assumption. reflexivity.
  - rewrite append_cons. simpl.
    destruct (JS.is_white_space c); [exact IH |].
    rewrite <- append_cons. now apply trimEnd_pad.
Qed.

Lemma count_char_app (c : ascii) (a b : string) :
  JS.count_char c (a +:+ b) = JS.count_char c a + JS.count_char c b.
Proof.
  induction a as [|x a IH]; [reflexivity |].
  rewrite append_cons. simpl. rewrite IH. lia.
Qed.

Lemma remove_all_count (c : ascii) (s : string) :
  JS.count_char c (JS.remove_all c s) = 0.
Proof.
  induction s as [|a s IH]; [reflexivity |]. simpl.
  destruct (Ascii.eqb a c) eqn:Ha; [exact IH |]. simpl. now rewrite Ha.
Qed.

Lemma remove_all_absent (c : ascii) (s : string) :
  JS.count_char c s = 0 -> JS.remove_all c s = s.
Proof.
  induction s as [|a s IH]; [reflexivity |]. simpl.
  destruct (Ascii.eqb a c); [discriminate |]. simpl. intros H. now rewrite IH.
Qed.

Lemma split_length (sep : ascii) (s : string) :
  length (JS.split sep s) = S (JS.count_char sep s).
Proof.
  induction s as [|c s IH]; [reflexivity |]. simpl.
  destruct (Ascii.eqb c sep); simpl; [now rewrite IH |].
  destruct (JS.split sep s); simpl in *; lia.
Qed.

Lemma split_pieces (sep : ascii) (s : string) :
  Forall (fun piece => JS.count_char sep piece = 0) (JS.split sep s).
Proof.
  induction s as [|c s IH]; simpl; [repeat constructor |].
  destruct (Ascii.eqb c sep) eqn:Hc; [constructor; [reflexivity | exact IH] |].
  destruct (JS.split sep s) as [|h t].
  - repeat constructor. simpl. now rewrite Hc.
  - inversion IH; subst. constructor; [| assumption]. simpl. now rewrite Hc.
Qed.

Lemma join_cons_char (sep : string) (c : ascii) (h : string) (t : list string) :
  JS.join sep (String c h :: t) = String c (JS.join sep (h :: t)).
Proof. destruct t; reflexivity. Qed.

(** What is joined back from the first pieces of a split is a prefix. *)
Lemma join_take_split (sep : ascii) (s : string) (n : nat) :
  exists rest,
    s = JS.join (String sep "") (take n (JS.split sep s)) +:+ rest.
Proof.
  revert n. induction s as [|c s IH]; intros n.
  - exists "". destruct n as [|[|n]]; reflexivity.
  - destruct n as [|n]; [now exists (String c s) |].
    simpl. destruct (Ascii.eqb c sep) eqn:Hc.
    + apply Ascii.eqb_eq in Hc. subst c. cbn [take].
      destruct (IH n) as [rest Hrest].
      destruct (take n (JS.split sep s)) as [|x l] eqn:Hl.
      * exists (String sep s). reflexivity.
      * exists rest.
        change (String sep s
                = String sep (JS.join (String sep "") (x :: l) +:+ rest)).
        f_equal. exact Hrest.
    + destruct (IH (S n)) as [rest Hrest].
      pose proof (split_not_nil sep s) as Hne.
      destruct (JS.split sep s) as [|h t]; [contradiction |].
      cbn [take] in *. exists rest.
      rewrite join_cons_char, append_cons. f_equal. exact Hrest.
Qed.

Lemma join_split (sep : ascii) (s : string) :
  JS.join (String sep "") (JS.split sep s) = s.
Proof.
  induction s as [|c s IH]; [reflexivity |]. simpl.
  destruct (Ascii.eqb c sep) eqn:Hc.
  - apply Ascii.eqb_eq in Hc. subst c.
    pose proof (split_not_nil sep s) as Hne.
    destruct (JS.split sep s) as [|h t]; [contradiction |].
    change (String sep (JS.join (String sep "") (h :: t)) = String sep s).
    f_equal. exact IH.
  - pose proof (split_not_nil sep s) as Hne.
    destruct (JS.split sep s) as [|h t]; [contradiction |].
    rewrite join_cons_char. f_equal. exact IH.
Qed.

Lemma join_count (sep : ascii) (l : list string) :
  Forall (fun piece => JS.count_char sep piece = 0) l ->
  JS.count_char sep (JS.join (String sep "") l) = pred (length l).
Proof.
  induction 1 as [|x l Hx Hl IH]; [reflexivity |].
  destruct l as [|y l]; [exact Hx |].
  change (JS.join (String sep "") (x :: y :: l))
    with (x +:+ String sep "" +:+ JS.join (String sep "") (y :: l)).
  rewrite !count_char_app, Hx, IH.
  cbn [JS.count_char length pred]. rewrite Ascii.eqb_refl. reflexivity.
Qed.

Lemma first_line_no_newline (s : string) :
  JS.count_char newline (Spec.first_line s) = 0.
Proof.
  induction s as [|c s IH]; [reflexivity |]. simpl.
  destruct (Ascii.eqb c newline) eqn:Hc; [reflexivity |]. simpl. now rewrite Hc.
Qed.

Lemma first_line_app (line rest : string) :
  JS.count_char newline line = 0 ->
  Spec.first_line (line +:+ String newline rest) = line.
Proof.
  induction line as [|c line IH]; [reflexivity |].
  rewrite append_cons. simpl.
  destruct (Ascii.eqb c newline); [discriminate |]. simpl.
  intros H. now rewrite IH.
Qed.

Lemma first_line_id (line : string) :
  JS.count_char newline line = 0 -> Spec.first_line line = line.
Proof.
  induction line as [|c line IH]; [reflexivity |]. simpl.
  destruct (Ascii.eqb c newline); [discriminate |]. simpl.
  intros H. now rewrite IH.
Qed.

Lemma lower_char_idem (c : ascii) :
  JS.lower_char (JS.lower_char c) = JS.lower_char c.
Proof.
  assert (Hall :
    forallb (fun c => Ascii.eqb (JS.lower_char (JS.lower_char c))
                        (JS.lower_char c)) JS.code_units = true)
    by (vm_compute; reflexivity).
  rewrite forallb_forall in Hall.
  apply Ascii.eqb_eq, Hall, code_units_complete.
Qed.

Lemma toLowerCase_idem (s : string) :
  JS.toLowerCase (JS.toLowerCase s) = JS.toLowerCase s.
Proof.
  induction s as [|c s IH]; [reflexivity |]. simpl.
  now rewrite lower_char_idem, IH.
Qed.

(** Containment is kept by extension on both sides. *)
Lemma contains_extend (s word before after : string) :
  Spec.contains s word -> Spec.contains (before +:+ s +:+ after) word.
Proof.
  intros [a [b ->]]. exists (before +:+ a), (b +:+ after).
  induction before as [|x before IH].
  - rewrite !append_nil. clear.
    induction a as [|x a IH]; [rewrite !append_nil | rewrite !append_cons; now f_equal].
    induction word as [|x w IH]; [reflexivity | rewrite !append_cons; now f_equal].
  - rewrite !append_cons. now f_equal.
Qed.

End MoreStrings.

(** ** More on the request client and the upload *)

Section MoreRequestClient.

(** X1.  The headers derived from a content depend on its first line
    only, whatever the rows after it are; there is one header more than
    there are commas in that line, quoted or not; and no header contains a
    double quote. *)
Theorem derived_headers_shape (line rest : string) :
  JS.count_char newline line = 0 ->
  let content := line +:+ String newline rest in
  FileUpload.derive_headers content = FileUpload.derive_headers line
  /\ exists hs,
       FileUpload.derive_headers content = Some hs
       /\ length hs = S (JS.count_char comma line)
       /\ Forall (fun h => JS.count_char dquote h = 0) hs.
Proof.
  intros Hline content. unfold content.
  rewrite !derive_headers_spec. unfold Spec.columnNames.
  rewrite first_line_app, first_line_id by assumption.
  split; [reflexivity |]. eexists. split; [reflexivity |]. split.
  - rewrite length_map. apply split_length.
  - apply Forall_map, Forall_forall. intros field _.
    unfold Spec.clean_field. simpl. apply remove_all_count.
Qed.

(** X2.  What a drop ends in.  Only the first file counts.  A file that is
    neither an image (its type starts with image/) nor a CSV (its type is
    text/csv or its name ends in .csv) gives the error and no data.  Any
    other file gives no error, and is read as a data URL when it is an
    image and as text otherwise; the data handed over, once and if the
    reader delivers a content, carry the name of the file and that
    content, as CSV with the headers of its first line whenever the file
    is a CSV, an image by its type included, and as image without headers
    otherwise.  Nothing is handed over and no error is shown when there
    is no file or when the reading is aborted or fails.  An error and
    data never come together. *)
Theorem onDrop_outcome (files : list FileUpload.File)
  (read : FileUpload.File -> FileUpload.ReadAs -> option string) :
  let isImage file := JS.startsWith "image/" (FileUpload.file_type file) in
  let isCsv file :=
    String.eqb (FileUpload.file_type file) "text/csv"
    || FileUpload.endsWith ".csv" (FileUpload.file_name file) in
  let mode file :=
    if isImage file then FileUpload.AsDataURL else FileUpload.AsText in
  match FileUpload.onDrop files read with
  | (Some e, Some d) => False
  | (Some e, None) =>
      e = "Invalid file type. Please upload a CSV or an image file."
      /\ exists file others,
           files = file :: others
           /\ JS.startsWith "image/" (FileUpload.file_type file) = false
           /\ String.eqb (FileUpload.file_type file) "text/csv" = false
           /\ FileUpload.endsWith ".csv" (FileUpload.file_name file) = false
  | (None, Some d) =>
      exists file others,
        files = file :: others
        /\ (isImage file || isCsv file) = true
        /\ name d = FileUpload.file_name file
        /\ read file (mode file) = Some (content d)
        /\ if isCsv file
           then type d = csv
                /\ headers d = Some (Spec.columnNames (content d))
           else type d = image /\ headers d = None
  | (None, None) =>
      files = []
      \/ exists file others,
           files = file :: others
           /\ (isImage file || isCsv file) = true
           /\ read file (mode file) = None
  end.
Proof.
  cbv zeta. destruct files as [|file others]; [now left |].
  unfold FileUpload.onDrop, FileUpload.onload.
  destruct (JS.startsWith "image/" (FileUpload.file_type file)) eqn:Himg;
    destruct (String.eqb (FileUpload.file_type file) "text/csv") eqn:Htype;
    destruct (FileUpload.endsWith ".csv" (FileUpload.file_name file)) eqn:Hname;
    cbn [negb andb orb];
    try (split; [reflexivity |]; exists file, others;
         rewrite ?Htype, ?Hname, ?Himg; now repeat split);
    match goal with
    | |- context [read file ?m] => destruct (read file m) as [text|] eqn:Hread
    end;
    rewrite ?derive_headers_spec;
    first [ right; exists file, others; rewrite ?Htype, ?Hname, ?Himg;
            now repeat split
          | exists file, others; cbn [name content type headers];
            rewrite ?Htype, ?Hname, ?Himg; cbn [orb]; now repeat split ].
Qed.

(** X3.  The explanation request of a CSV file with headers and a
    non-empty content carries a sample that is a prefix of the content
    with at most four line feeds (five lines), and the whole content when
    that has no more; for an image the short prompt is used whatever the
    headers and the content are. *)
Theorem explanation_request_sample (goal model : string) (hs : list string)
  (fileContent : string) :
  fileContent <> "" ->
  (exists rows,
     geminiService.explanation_request goal model csv (Some hs)
       (Some fileContent)
     = ReqExplanationCsv goal model hs rows
     /\ (exists rest, fileContent = rows +:+ rest)
     /\ JS.count_char newline rows <= 4
     /\ (JS.count_char newline fileContent <= 4 -> rows = fileContent))
  /\ forall hs' content',
       geminiService.explanation_request goal model image hs' content'
       = ReqExplanationGeneric goal model image hs'.
Proof.
  intros Hne. split; [| reflexivity].
  unfold geminiService.explanation_request.
  destruct fileContent as [|c0 s0] eqn:Hc; [contradiction |].
  cbn [JS.is_empty]. rewrite <- Hc. clear Hc Hne c0 s0.
  eexists. split; [reflexivity |].
  unfold JS.slice. rewrite drop_0. change (5 - 0) with 5.
  split; [apply join_take_split |]. split.
  - rewrite join_count by (apply Forall_take, split_pieces).
    rewrite length_take. lia.
  - intros Hfew. rewrite take_ge by (rewrite split_length; lia).
    apply join_split.
Qed.

Lemma schema_properties_lookup (l : list string) (h : string) :
  geminiService.schema_properties l !! h
  = if decide (h ∈ l /\ h <> "__proto__")
    then Some (geminiService.hint_type h) else None.
Proof.
  unfold geminiService.schema_properties. now rewrite schema_fold_lookup.
Qed.

(** X4.  The schema of the sample-row request declares feature columns
    and nothing else: a name is a property exactly when it is a header
    other than the target and other than [__proto__], a name whose
    assignment sets the prototype and declares nothing; so the target
    column is never declared.  The headers the request lists as input and
    requires are the headers other than the target, [__proto__] included
    when it is one; and the request carries at most three lines of the
    content. *)
Theorem sample_schema_keys {St} (J : JSONParse) (svc : Request -> Reply)
  (hs : list string) (csvContent : string) (target : option string)
  (s : St) :
  let inputHeaders :=
    List.filter (fun h => geminiService.strict_neq h target) hs in
  let properties := geminiService.schema_properties inputHeaders in
  (forall h, is_Some (properties !! h)
             <-> h ∈ hs /\ target <> Some h /\ h <> "__proto__")
  /\ (forall h, h ∈ inputHeaders <-> h ∈ hs /\ target <> Some h)
  /\ (forall t, target = Some t -> properties !! t = None)
  /\ properties !! "__proto__" = None
  /\ exists rows,
       (run svc (geminiService.generateSampleInput J hs csvContent target)
          s []).1.2
       = [ReqSampleInput inputHeaders target rows properties]
       /\ JS.count_char newline rows <= 2.
Proof.
  intros inputHeaders properties.
  assert (Hin : forall h, h ∈ inputHeaders <-> h ∈ hs /\ target <> Some h).
  { intros h. unfold inputHeaders.
    rewrite !list_elem_of_In, filter_In, strict_neq_spec. reflexivity. }
  split; [| split; [exact Hin | split; [| split]]].
  - intros h. unfold properties. rewrite schema_properties_lookup.
    destruct (decide (h ∈ inputHeaders /\ h <> "__proto__")) as [[Hh Hp]|Hh].
    + apply Hin in Hh as [Hh Ht].
      split; [intros _; now repeat split | intros _; eexists; reflexivity].
    + split; [intros [x Hx]; discriminate |].
      intros (H1 & H2 & H3). destruct Hh. split; [now apply Hin | exact H3].
  - intros t Ht. unfold properties. rewrite schema_properties_lookup.
    rewrite decide_False; [reflexivity |].
    intros [Hc _]. apply Hin in Hc as [_ Hc]. contradiction.
  - unfold properties. rewrite schema_properties_lookup.
    rewrite decide_False; [reflexivity |]. now intros [_ Hc].
  - eexists. split.
    + unfold geminiService.generateSampleInput, generateContent.
      cbn [bind run].
      destruct (svc _) as [|text]; cbn [bind run]; [reflexivity |].
      destruct (parse_Sample J (JS.trim text)); reflexivity.
    + unfold JS.slice. change (4 - 1) with 3.
      rewrite join_count by (apply Forall_take, Forall_drop, split_pieces).
      rewrite length_take. lia.
Qed.

Lemma contains_any_extend (s before after : string) (words : list string) :
  Spec.contains_any (JS.toLowerCase s) words ->
  Spec.contains_any (JS.toLowerCase (before +:+ s +:+ after)) words.
Proof.
  unfold Spec.contains_any. rewrite !Exists_exists.
  intros [w [Hin Hw]]. exists w. split; [exact Hin |].
  rewrite !toLowerCase_app. now apply contains_extend.
Qed.

(** X5.  The numeric hint ignores case, and it is kept by every longer
    name: a header that contains a header typed NUMBER is typed NUMBER
    (so does every name around id, age or rate). *)
Theorem numeric_hint_extension (header : string) :
  geminiService.numeric_hint (JS.toLowerCase header)
  = geminiService.numeric_hint header
  /\ (geminiService.numeric_hint header = true ->
      forall before after,
        geminiService.numeric_hint (before +:+ header +:+ after) = true).
Proof.
  split.
  - pose proof (numeric_hint_spec header) as H1.
    pose proof (numeric_hint_spec (JS.toLowerCase header)) as H2.
    rewrite toLowerCase_idem in H2.
    destruct (geminiService.numeric_hint header);
      destruct (geminiService.numeric_hint (JS.toLowerCase header));
      try reflexivity.
    + apply H2, H1. reflexivity.
    + symmetry. apply H1, H2. reflexivity.
  - intros H before after. apply numeric_hint_spec, contains_any_extend.
    now apply numeric_hint_spec.
Qed.

Lemma classifyTask_cases (goal : string) :
  (App.classifyTask goal = CLASSIFICATION
   /\ Spec.contains_any (JS.toLowerCase goal) Spec.classification_keywords)
  \/ (App.classifyTask goal = REGRESSION
      /\ Spec.contains_any (JS.toLowerCase goal) Spec.regression_keywords)
  \/ App.classifyTask goal = OTHER.
Proof.
  pose proof (contains_any_classification (JS.toLowerCase goal)) as Hc.
  pose proof (contains_any_regression (JS.toLowerCase goal)) as Hr.
  unfold App.classifyTask. cbv zeta.
  destruct (JS.includes "classify" (JS.toLowerCase goal)
            || JS.includes "categorize" (JS.toLowerCase goal)
            || JS.includes "identify" (JS.toLowerCase goal)).
  - left. split; [reflexivity | now apply Hc].
  - destruct (JS.includes "predict" (JS.toLowerCase goal)
              || JS.includes "forecast" (JS.toLowerCase goal)
              || JS.includes "estimate" (JS.toLowerCase goal)).
    + right. left. split; [reflexivity | now apply Hr].
    + right. right. reflexivity.
Qed.

(** X6.  The task classifier ignores case, and text added around a goal
    never lowers its category in the order OTHER, REGRESSION,
    CLASSIFICATION: a classification stays one, a regression stays one or
    becomes a classification. *)
Theorem classifyTask_monotone (goal before after : string) :
  App.classifyTask (JS.toLowerCase goal) = App.classifyTask goal
  /\ App.task_rank (App.classifyTask goal)
     <= App.task_rank (App.classifyTask (before +:+ goal +:+ after)).
Proof.
  split.
  - unfold App.classifyTask. now rewrite toLowerCase_idem.
  - destruct (classifyTask_cases goal) as [[-> H] | [[-> H] | ->]].
    + rewrite classifyTask_classification by (now apply contains_any_extend).
      reflexivity.
    + apply (contains_any_extend goal before after) in H.
      destruct (classifyTask_cases (before +:+ goal +:+ after))
        as [[-> _] | [[-> _] | Ho]]; simpl; try lia.
      exfalso. revert Ho. apply contains_any_regression in H.
      unfold App.classifyTask. cbv zeta. rewrite H.
      intros Ho.
      destruct (JS.includes "classify" _ || _ || _); discriminate Ho.
    + simpl. lia.
Qed.

Lemma trimEnd_clean_end (s : string) (c : ascii) :
  JS.is_white_space c = false ->
  JS.trimEnd (s +:+ String c "") = s +:+ String c "".
Proof.
  intros Hc. induction s as [|x s IH].
  - rewrite append_nil. simpl. now rewrite Hc.
  - rewrite append_cons. simpl. rewrite IH.
    destruct s; rewrite ?append_nil, ?append_cons; simpl;
      now rewrite andb_false_r.
Qed.

Lemma remove_all_app (c : ascii) (a b : string) :
  JS.remove_all c (a +:+ b) = JS.remove_all c a +:+ JS.remove_all c b.
Proof.
  induction a as [|x a IH]; [reflexivity |].
  rewrite append_cons. simpl. destruct (Ascii.eqb x c); [exact IH |].
  rewrite append_cons. now f_equal.
Qed.

Lemma append_empty_r (s : string) : s +:+ "" = s.
Proof.
  induction s as [|x s IH]; [reflexivity |]. rewrite append_cons. now f_equal.
Qed.

(** X7.  An answer that names a header is accepted as it is: when a
    header has no white space at its ends and no double quote, the answer
    made of that header, alone or between double quotes, and with any
    white space around, selects it. *)
Theorem named_header_is_selected (hs : list string) (h pad1 pad2 : string) :
  h ∈ hs -> JS.trim h = h -> JS.count_char dquote h = 0 ->
  JS.all_white_space pad1 = true -> JS.all_white_space pad2 = true ->
  geminiService.chooseTargetColumn hs (pad1 +:+ h +:+ pad2) = Some h
  /\ geminiService.chooseTargetColumn hs
       (pad1 +:+ String dquote (h +:+ String dquote "") +:+ pad2)
     = Some h.
Proof.
  intros Hin Htrim Hq H1 H2. unfold geminiService.chooseTargetColumn.
  cbv zeta. rewrite !trim_pad by assumption. split.
  - rewrite Htrim, remove_all_absent by assumption.
    apply array_includes_spec in Hin. now rewrite Hin.
  - assert (Ht : JS.trim (String dquote (h +:+ String dquote ""))
                 = String dquote (h +:+ String dquote "")).
    { unfold JS.trim. cbn [JS.trimStart].
      change (JS.is_white_space dquote) with false. cbv iota.
      rewrite <- append_cons. apply trimEnd_clean_end. reflexivity. }
    rewrite Ht. cbn [JS.remove_all]. rewrite Ascii.eqb_refl.
    rewrite remove_all_app, remove_all_absent by assumption.
    cbn [JS.remove_all]. rewrite Ascii.eqb_refl, append_empty_r.
    apply array_includes_spec in Hin. now rewrite Hin.
Qed.

End MoreRequestClient.

(** ** More on the workflow *)

Section MoreWorkflow.

Context (J : JSONParse).

(** X8.  A submission over a file whose requests succeed ends, without an
    exception, in the stage MODEL_SELECTION with the suggestions parsed
    from the trimmed answer, the goal, the task type of the goal, the
    target column committed and no error; file data and selected model
    are as before. *)
Theorem goal_submit_succeeds svc (a : App.State) fd goal text v :
  App.fileData a = Some fd ->
  ~ App.target_failed svc fd goal ->
  svc (ReqModelSuggestions goal (type fd)) = Replied text ->
  parse_ModelSuggestion J (JS.trim text) = Some v ->
  exists sent,
    run svc (App.handleGoalSubmit J (App.fileData a) goal) a []
    = (App.mkState MODEL_SELECTION (Some fd) goal (App.classifyTask goal)
         (App.committed_target svc fd goal (App.targetColumn a))
         v (App.selectedModel a) None,
       sent, Returned tt).
Proof.
  intros Hfd Hnt Hsvc Hparse. rewrite Hfd.
  unfold App.handleGoalSubmit, set.
  cbn [bind try_catch run]. fold (App.processing goal a).
  pose proof (run_suggestions J svc goal fd) as Hs. cbv zeta in Hs.
  unfold set in Hs. cbn [bind] in Hs.
  unfold App.committed_target.
  destruct (type fd) eqn:Ht; [destruct (headers fd) as [hs|] eqn:Hh |].
  - unfold geminiService.extractTargetColumn, generateContent.
    cbn [bind try_catch run].
    destruct (svc (ReqTargetColumn goal hs)) as [|t] eqn:Htarget.
    + exfalso. apply Hnt. exists hs. repeat split; assumption.
    + cbn [bind try_catch run]. rewrite Hs, Hsvc, Hparse.
      eexists. destruct a; cbn in Hfd; subst; reflexivity.
  - cbn [bind try_catch run]. rewrite Hs, Hsvc, Hparse.
    eexists. destruct a; cbn in Hfd; subst; reflexivity.
  - cbn [bind try_catch run]. rewrite Hs, Hsvc, Hparse.
    eexists. destruct a; cbn in Hfd; subst; reflexivity.
Qed.

(** X9.  The requests of a submission over a file are issued one after
    the other: the identification of the target column only for a CSV
    file with headers, and first; the model suggestions after it; and no
    model-suggestion request at all once the identification is rejected.
    Nothing else is requested. *)
Theorem goal_submit_requests svc (a : App.State) fd goal :
  (run svc (App.handleGoalSubmit J (Some fd) goal) a []).1.2
  = match type fd, headers fd with
    | csv, Some hs =>
        match svc (ReqTargetColumn goal hs) with
        | Rejected => [ReqTargetColumn goal hs]
        | Replied _ => [ReqTargetColumn goal hs; ReqModelSuggestions goal csv]
        end
    | _, _ => [ReqModelSuggestions goal (type fd)]
    end.
Proof.
  unfold App.handleGoalSubmit, set.
  cbn [bind try_catch run].
  pose proof (run_suggestions J svc goal fd) as Hs. cbv zeta in Hs.
  unfold set in Hs. cbn [bind] in Hs.
  destruct (type fd) eqn:Ht; [destruct (headers fd) as [hs|] eqn:Hh |].
  - unfold geminiService.extractTargetColumn, generateContent.
    cbn [bind try_catch run].
    destruct (svc (ReqTargetColumn goal hs)) as [|t]; cbn [bind try_catch run];
      [reflexivity |].
    rewrite Hs. destruct (svc (ReqModelSuggestions goal csv)) as [|t'];
      [| destruct (parse_ModelSuggestion J (JS.trim t'))]; reflexivity.
  - cbn [bind try_catch run]. rewrite Hs.
    destruct (svc (ReqModelSuggestions goal csv)) as [|t'];
      [| destruct (parse_ModelSuggestion J (JS.trim t'))]; reflexivity.
  - cbn [bind try_catch run]. rewrite Hs.
    destruct (svc (ReqModelSuggestions goal image)) as [|t'];
      [| destruct (parse_ModelSuggestion J (JS.trim t'))]; reflexivity.
Qed.

(** X10.  A submission over a file, followed over time: it stores the
    goal and its task type, enters the stage PROCESSING and suspends on
    one request, the identification of the target column for a CSV file
    with headers and the model suggestions otherwise.  Whatever the
    service answers, the handler has ended after two responses at most: a
    rejected identification ends it with the error in the stage
    GOAL_INPUT; an answered one writes the target column, keeps the stage
    PROCESSING and suspends on the model-suggestion request, whose
    response ends it, with the suggestions in the stage MODEL_SELECTION or
    with the error in the stage GOAL_INPUT.  At the end the handlers
    suspended before are the only ones left, the file, the goal and the
    task type are those of the submission, and the stage is never
    PROCESSING. *)
Theorem submission_runs_to_completion (w : App.World) fd goal (r1 r2 : Reply) :
  App.fileData (App.state w) = Some fd ->
  let i := length (App.pending w) in
  let w1 := App.step J w (App.GoalSubmit goal) in
  let w2 := App.step J w1 (App.Resolve i r1) in
  let w3 := App.step J w2 (App.Resolve i r2) in
  App.state w1 = App.processing goal (App.state w)
  /\ App.appState (App.state w1) = PROCESSING
  /\ length (App.pending w1) = S i
  /\ match type fd, headers fd with
     | csv, Some hs =>
         App.sent w1 = (App.sent w ++ [ReqTargetColumn goal hs])%list
         /\ match r1 with
            | Rejected =>
                App.state w2 = App.reverted (App.state w1)
                /\ App.pending w2 = App.pending w
                /\ App.sent w2 = App.sent w1
                /\ w3 = w2
            | Replied text =>
                App.state w2
                = App.setTargetColumn
                    (geminiService.chooseTargetColumn hs text) (App.state w1)
                /\ App.appState (App.state w2) = PROCESSING
                /\ length (App.pending w2) = S i
                /\ App.sent w2
                   = (App.sent w1 ++ [ReqModelSuggestions goal csv])%list
                /\ App.state w3 = App.concluded J r2 (App.state w2)
                /\ App.sent w3 = App.sent w2
            end
     | _, _ =>
         App.sent w1 = (App.sent w ++ [ReqModelSuggestions goal (type fd)])%list
         /\ App.state w2 = App.concluded J r1 (App.state w1)
         /\ App.pending w2 = App.pending w
         /\ App.sent w2 = App.sent w1
         /\ w3 = w2
     end
  /\ App.pending w3 = App.pending w
  /\ (App.appState (App.state w3) = GOAL_INPUT
      /\ App.error (App.state w3) = Some App.retry_message
      \/ App.appState (App.state w3) = MODEL_SELECTION
         /\ App.error (App.state w3) = None)
  /\ App.fileData (App.state w3) = Some fd
  /\ App.userGoal (App.state w3) = goal
  /\ App.taskType (App.state w3) = App.classifyTask goal.
Proof.
  intros Hfd. cbv zeta.
  assert (Hnone : forall s l reqs r,
            App.step J (App.mkWorld s l reqs) (App.Resolve (length l) r)
            = App.mkWorld s l reqs).
  { intros s l reqs r. cbn [App.step App.pending].
    now rewrite (proj2 (lookup_ge_None l (length l))). }
  change (App.step J w (App.GoalSubmit goal))
    with (App.launch (App.handleGoalSubmit J (App.fileData (App.state w)) goal)
            w).
  rewrite Hfd. submit_cases fd.
  - split; [reflexivity |]. split; [reflexivity |].
    split; [rewrite length_app; cbn; lia |].
    rewrite resolve_newest. unfold App.launch.
    destruct r1 as [|text];
      cbn [bind try_catch run_sync fst snd App.state App.pending App.sent].
    + rewrite Hnone. cbn [App.state App.pending App.sent].
      repeat split; try reflexivity; try exact Hfd.
      left. split; reflexivity.
    + resolve_suggestions r2;
        repeat split; try reflexivity; try exact Hfd;
        try (rewrite length_app; cbn; lia);
        first [ left; split; reflexivity | right; split; reflexivity ].
  - split; [reflexivity |]. split; [reflexivity |].
    split; [rewrite length_app; cbn; lia |].
    resolve_suggestions r1; rewrite Hnone;
      cbn [App.state App.pending App.sent];
      repeat split; try reflexivity; try exact Hfd;
      first [ left; split; reflexivity | right; split; reflexivity ].
  - split; [reflexivity |]. split; [reflexivity |].
    split; [rewrite length_app; cbn; lia |].
    resolve_suggestions r1; rewrite Hnone;
      cbn [App.state App.pending App.sent];
      repeat split; try reflexivity; try exact Hfd;
      first [ left; split; reflexivity | right; split; reflexivity ].
Qed.

Lemma ends_well_bind_set (f : App.State -> App.State)
  (k : Async App.State unit) (s : App.State) :
  App.ends_well (bind (set f) (fun _ => k)) s = App.ends_well k (f s).
Proof. reflexivity. Qed.

(** The handler of a submission over a file suspends and ends as the
    stages require. *)
Lemma handleGoalSubmit_ends_well fd goal (s : App.State) :
  App.fileData s = Some fd ->
  App.ends_well (App.handleGoalSubmit J (Some fd) goal) s.
Proof.
  intros Hfd.
  assert (Hne : forall x : FileData, Some x <> None) by discriminate.
  unfold App.handleGoalSubmit, set,
    geminiService.extractTargetColumn,
    geminiService.generateModelSuggestions, generateContent.
  cbn [bind try_catch App.ends_well].
  destruct (type fd); [destruct (headers fd) as [hs|] |];
    cbn [bind try_catch App.ends_well];
    repeat match goal with
      | |- _ /\ _ => split
      | |- forall r : Reply, _ => intros [|?]; cbn [bind try_catch App.ends_well]
      | |- App.ends_well (try_catch (bind (match ?x with _ => _ end) _) _) _ =>
          destruct x; cbn [bind try_catch App.ends_well]
      | |- App.settled _ => unfold App.settled; cbn; rewrite Hfd
      | |- _ = _ => reflexivity
      | |- _ <> _ => cbn; rewrite ?Hfd; discriminate
      | |- _ \/ _ => first [left; reflexivity | right; reflexivity]
      end.
Qed.

Lemma launch_consistent (m : Async App.State unit) (s : App.State)
  (sent : list Request) :
  App.ends_well m s -> App.consistent (App.launch m (App.mkWorld s [] sent)).
Proof.
  revert s. induction m as [u | e | f k IH | req k _]; intros s Hm.
  - left. split; [reflexivity |]. destruct Hm as [Hfd [Hg | Hm]];
      unfold App.launch, App.stable; cbn; [now rewrite Hg | now rewrite Hm].
  - left. split; [reflexivity |]. destruct Hm as [Hfd [Hg | Hm]];
      unfold App.launch, App.stable; cbn; [now rewrite Hg | now rewrite Hm].
  - exact (IH (f s) Hm).
  - destruct Hm as (Hp & Hfd & Hk). right. exists k.
    unfold App.launch. cbn. repeat split; assumption.
Qed.

Lemma step_consistent (w : App.World) (ev : App.Event) :
  App.consistent w -> App.enabled w ev = true -> App.is_reset ev = false ->
  match ev with
  | App.FileAccepted _ => App.appState (App.state w) = FILE_UPLOAD
  | _ => True
  end ->
  App.consistent (App.step J w ev).
Proof.
  intros Hw Hen Hnr Hdrop. destruct w as [s pend sent].
  destruct ev as [data | goal | model | | i r]; [| | | discriminate |];
    cbn [App.enabled App.state App.pending] in Hen.
  - cbn [App.state] in Hdrop.
    destruct Hw as [[Hp _] | (k & Hp & Hproc & _)];
      cbn [App.state App.pending] in *; [| congruence].
    subst pend. left. split; [reflexivity |].
    unfold App.stable. cbn. discriminate.
  - apply andb_true_iff in Hen as [Hen _]. apply andb_true_iff in Hen as [Hen _].
    apply andb_true_iff in Hen as [Hst Hfd]. apply bool_decide_eq_true in Hst.
    destruct Hw as [[Hp _] | (k & Hp & Hproc & _)];
      cbn [App.state App.pending] in *; [| congruence].
    subst pend. destruct (App.fileData s) as [fd|] eqn:Hs; [| discriminate].
    cbn [App.step App.state]. rewrite Hs.
    apply launch_consistent, handleGoalSubmit_ends_well, Hs.
  - apply andb_true_iff in Hen as [Hst Hsugg]. apply bool_decide_eq_true in Hst.
    destruct Hw as [[Hp Hstab] | (k & Hp & Hproc & _)];
      cbn [App.state App.pending] in *; [| congruence].
    subst pend. left. split; [reflexivity |].
    unfold App.stable in *. rewrite Hst in Hstab. cbn.
    split; [exact Hstab | exact Hsugg].
  - apply bool_decide_eq_true in Hen.
    destruct Hw as [[Hp _] | (k & Hp & Hproc & Hfd & Hk)];
      cbn [App.state App.pending] in *; subst pend; [simpl in Hen; lia |].
    destruct i as [|i]; [| simpl in Hen; lia].
    cbn. apply launch_consistent, Hk.
Qed.

Lemma orderly_pass_consistent (history : list App.Event) (w : App.World) :
  App.consistent w ->
  App.orderly_pass J w history = true ->
  App.consistent (App.steps J w history).
Proof.
  revert w. induction history as [|ev evs IH]; intros w Hw Hf.
  - exact Hw.
  - cbn [App.orderly_pass] in Hf.
    apply andb_true_iff in Hf as [Hf Hrest].
    apply andb_true_iff in Hf as [Hf Hdrop].
    apply andb_true_iff in Hf as [Hen Hnr]. apply negb_true_iff in Hnr.
    rewrite steps_cons. apply IH; [| assumption].
    apply step_consistent; [assumption | assumption | assumption |].
    destruct ev; try exact I. now apply bool_decide_eq_true in Hdrop.
Qed.

(** X11.  In a pass without reset in which every file is loaded while the
    drop zone is shown, the stage and the data agree after every history
    the page lets happen: at most one handler is suspended, and only in
    the stage PROCESSING; every stage but the first has file data; and
    the results are shown only over suggestions that count as true.  (The
    stage MODEL_SELECTION can hold suggestions that count as false, after
    which the page shows no model to select.) *)
Theorem pass_without_reset_is_consistent (history : list App.Event) :
  App.orderly_pass J App.start history = true ->
  let w := App.steps J App.start history in
  App.consistent w
  /\ length (App.pending w) <= 1
  /\ (App.pending w <> [] -> App.appState (App.state w) = PROCESSING)
  /\ (App.appState (App.state w) = PROCESSING -> App.pending w <> [])
  /\ (App.appState (App.state w) <> FILE_UPLOAD ->
      App.fileData (App.state w) <> None)
  /\ (App.appState (App.state w) = RESULTS_DASHBOARD ->
      JSValue.truthy (App.modelSuggestions (App.state w)) = true).
Proof.
  intros Hf w.
  assert (Hw : App.consistent w).
  { apply orderly_pass_consistent; [| assumption].
    left. split; [reflexivity | exact I]. }
  split; [exact Hw |].
  destruct Hw as [[Hp Hstab] | (k & Hp & Hproc & Hfd & _)]; rewrite Hp.
  - unfold App.stable in *.
    destruct (App.appState (App.state w)); cbn [length];
      repeat split; try lia; try congruence; try tauto; try discriminate.
  - rewrite Hproc. cbn [length].
    repeat split; try lia; try congruence; try discriminate.
Qed.

End MoreWorkflow.

(** ** More on the dashboard and on the other components *)

Section MoreDashboard.

Context (J : JSONParse).

Import ResultsDashboard.

(** X12.  A test with every input filled in ends without an exception
    and with the loading flag of the prediction down again; the
    prediction is the trimmed answer and the error is cleared when the
    service answers, and the prediction is empty and the error is the
    failure message when the request is rejected.  Explanation, metrics
    and inputs are left as they are. *)
Theorem test_model_outcome svc (p : Props) (d : State) :
  (forall k v, testInputValues d !! k = Some v -> JS.trim v <> "") ->
  let req := ReqPrediction (userGoal p) (selectedModel p) (testInputValues d)
               (fileData_headers (fileData p)) in
  let result := run svc (handleTestModel p (testInputValues d)) d [] in
  let d' := result.1.1 in
  result.2 = Returned tt
  /\ loading_prediction (isLoading d') = false
  /\ match svc req with
     | Replied text => prediction d' = JS.trim text /\ error d' = None
     | Rejected => prediction d' = "" /\ error d' = Some prediction_failed
     end
  /\ explanation d' = explanation d
  /\ metrics d' = metrics d
  /\ testInputValues d' = testInputValues d.
Proof.
  intros Hall req result d'. unfold d', result, req, handleTestModel.
  destruct (some_value_blank (testInputValues d)) eqn:Hblank.
  { apply some_value_blank_spec in Hblank as (k & v & Hkv & Hv).
    now destruct (Hall k v Hkv). }
  unfold set, geminiService.generatePrediction, generateContent.
  cbn [bind try_catch try_finally run].
  destruct (svc _) as [|text]; cbn [bind try_catch try_finally run fst snd];
    repeat split.
Qed.

(** X13.  Without file data [fetchAllData] does nothing and requests
    nothing.  With file data it ends without an exception with both
    loading flags down, so that the metrics tab never stays on the
    skeleton; the error is the message of the metrics when the metrics
    fail, else the message of the explanation when that fails, else the
    error held before, which is never cleared; inputs and prediction are
    left as they are. *)
Theorem fetch_all_data_settles svc (p : Props) (d : State) :
  let result := run svc (fetchAllData J p) d [] in
  let d' := result.1.1 in
  result.2 = Returned tt
  /\ match fileData p with
     | None => d' = d /\ result.1.2 = []
     | Some fd =>
         loading_explanation (isLoading d') = false
         /\ loading_metrics (isLoading d') = false
         /\ renderMetrics d' <> LoadingSkeleton
         /\ error d'
            = match metrics_of J (svc (metrics_request p)),
                    svc (explanation_request p fd) with
              | None, _ => Some metrics_failed
              | Some _, Rejected => Some explanation_failed
              | Some _, Replied _ => error d
              end
         /\ testInputValues d' = testInputValues d
         /\ prediction d' = prediction d
     end.
Proof.
  cbv zeta. destruct (fileData p) as [fd|] eqn:Hfd.
  - pose proof (run_fetchAllData J svc p fd d [] Hfd) as Hrun.
    cbv zeta in Hrun. rewrite Hrun. cbn [fst snd].
    unfold renderMetrics.
    destruct (metrics_of J (svc (metrics_request p)));
      destruct (svc (explanation_request p fd)); cbn;
      repeat split; intros Hc; try discriminate Hc;
      repeat match type of Hc with
             | context [if ?b then _ else _] => destruct b
             end;
      discriminate Hc.
  - unfold fetchAllData. rewrite Hfd. repeat split.
Qed.

Lemma fromEntries_keys (entries : list (string * string)) (k : string) :
  is_Some (fromEntries entries !! k) <-> k ∈ map fst entries.
Proof.
  unfold fromEntries.
  assert (H : forall (acc : gmap string string),
    is_Some (foldl (fun acc kv => <[kv.1 := kv.2]> acc) acc entries !! k)
    <-> k ∈ map fst entries \/ is_Some (acc !! k)).
  { induction entries as [|[k0 v0] l IH]; intros acc.
    - simpl. rewrite elem_of_nil. tauto.
    - cbn [foldl map fst snd]. rewrite IH, elem_of_cons.
      destruct (decide (k0 = k)) as [->|Hne].
      + rewrite lookup_insert_eq. split; [intros _; left; now left |].
        intros _. right. eexists. reflexivity.
      + rewrite lookup_insert_ne by assumption. split.
        * intros [?|?]; [left; now right | now right].
        * intros [[?|?]|?]; [congruence | now left | now right]. }
  rewrite H, lookup_empty. split; [intros [?|[x Hx]] | now left].
  - assumption.
  - discriminate.
Qed.

(** With keys that differ, the object built from entries holds each
    entry and nothing else. *)
Lemma fromEntries_lookup (entries : list (string * string)) (k v : string) :
  NoDup (map fst entries) ->
  fromEntries entries !! k = Some v <-> (k, v) ∈ entries.
Proof.
  unfold fromEntries.
  assert (H : forall (acc : gmap string string),
    NoDup (map fst entries) ->
    (forall k', k' ∈ map fst entries -> acc !! k' = None) ->
    foldl (fun acc kv => <[kv.1 := kv.2]> acc) acc entries !! k = Some v
    <-> (k, v) ∈ entries \/ acc !! k = Some v).
  { induction entries as [|[k0 v0] l IH]; intros acc Hnd Hfresh.
    - simpl. rewrite elem_of_nil. tauto.
    - cbn [foldl map fst snd] in *. apply NoDup_cons in Hnd as [Hk0 Hnd].
      rewrite IH; [| assumption |].
      + rewrite elem_of_cons. destruct (decide (k0 = k)) as [->|Hne].
        * rewrite lookup_insert_eq, (Hfresh k) by (now left). split.
          -- intros [Hin | Heq]; [left; now right |].
             left. left. congruence.
          -- intros [[Heq | Hin] | Hc]; [| now left | discriminate].
             right. congruence.
        * rewrite lookup_insert_ne by assumption. split.
          -- intros [Hin | Hacc]; [left; now right | now right].
          -- intros [[Heq | Hin] | Hacc]; [congruence | now left | now right].
      + intros k' Hk'. rewrite lookup_insert_ne.
        * apply Hfresh. now right.
        * intros ->. contradiction. }
  intros Hnd. rewrite H; [| assumption | intros; apply lookup_empty].
  rewrite lookup_empty. split; [intros [?|?] | now left].
  - assumption.
  - discriminate.
Qed.


Lemma initial_fold_lookup (l : list string) (acc : gmap string string)
  (h : string) :
  foldl (fun acc header => JS.assign header "" acc) acc l !! h
  = if decide (h ∈ l /\ h <> "__proto__") then Some "" else acc !! h.
Proof.
  revert acc. induction l as [|x l IH]; intros acc.
  - simpl. destruct (decide (h ∈ [] /\ h <> "__proto__")) as [[Hin _]|];
      [| reflexivity].
    now apply elem_of_nil in Hin.
  - cbn [foldl]. rewrite IH, assign_lookup.
    destruct (decide (h ∈ l /\ h <> "__proto__")) as [[Hl Hp]|Hl].
    + rewrite decide_True; [reflexivity |]. split; [now right | assumption].
    + destruct (decide (x = h /\ h <> "__proto__")) as [[-> Hp]|Hne].
      * rewrite decide_True; [reflexivity |]. split; [now left | assumption].
      * rewrite decide_False; [reflexivity |].
        intros [Hc Hp]. apply elem_of_cons in Hc as [->|Hc]; tauto.
Qed.

(** The keys after edits: those held before and those edited. *)
Lemma edits_keys (edits : list (string * string)) (s : State) (h : string) :
  is_Some
    (testInputValues (foldl (fun s e => handleInputChange e.1 e.2 s) s edits)
       !! h)
  <-> is_Some (testInputValues s !! h) \/ h ∈ map fst edits.
Proof.
  revert s. induction edits as [|[k v] edits IH]; intros s.
  - simpl. rewrite elem_of_nil. tauto.
  - cbn [foldl map fst snd]. rewrite IH, elem_of_cons.
    unfold handleInputChange. cbn [testInputValues setTestInputValues].
    destruct (decide (k = h)) as [->|Hne].
    + rewrite lookup_insert_eq. split; [intros _; right; now left |].
      intros _. left. eexists. reflexivity.
    + rewrite lookup_insert_ne by assumption. split.
      * intros [?|?]; [now left | right; now right].
      * intros [?|[?|?]]; [now left | congruence | now right].
Qed.

Lemma proto_is_inherited :
  JS.array_includes JS.object_prototype_names "__proto__" = true.
Proof. reflexivity. Qed.

(** X15.  The inputs of the test bench follow its fields: once the
    inputs are initialised for a CSV file with headers, and after any
    edits of the fields shown, the keys of the inputs are the input
    headers (the headers other than the target), less the header
    [__proto__] as long as its field is not edited, whose assignment adds
    no key; the field of every key shows the text held, the field of an
    unedited [__proto__] shows an inherited object and no text; and the
    test is refused exactly when one of the fields shown holds a blank
    text. *)
Theorem test_inputs_follow_fields (p : Props) (fd : FileData)
  (hs : list string) (d : State) (edits : list (string * string)) :
  fileData p = Some fd -> type fd = csv -> headers fd = Some hs ->
  Forall (fun e => e.1 ∈ inputHeaders p) edits ->
  let d' :=
    foldl (fun s e => handleInputChange e.1 e.2 s) (initialInputs p d) edits in
  (forall h, is_Some (testInputValues d' !! h)
             <-> h ∈ inputHeaders p
                 /\ (h <> "__proto__" \/ h ∈ map fst edits))
  /\ (forall h, h ∈ inputHeaders p ->
        match testInputValues d' !! h with
        | Some v => field_value d' h = FieldText v
        | None => h = "__proto__" /\ field_value d' h = FieldInherited
        end)
  /\ (some_value_blank (testInputValues d') = true
      <-> exists h v, h ∈ inputHeaders p
                      /\ field_value d' h = FieldText v /\ JS.trim v = "").
Proof.
  intros Hfd Ht Hh Hedits d'.
  assert (Hkeys : forall h,
            is_Some (testInputValues d' !! h)
            <-> h ∈ inputHeaders p
                /\ (h <> "__proto__" \/ h ∈ map fst edits)).
  { intros h. unfold d'. rewrite edits_keys.
    assert (Hinit : is_Some (testInputValues (initialInputs p d) !! h)
                    <-> h ∈ inputHeaders p /\ h <> "__proto__").
    { unfold initialInputs, inputHeaders. rewrite Hfd, Ht, Hh.
      cbn [testInputValues setTestInputValues].
      rewrite initial_fold_lookup, lookup_empty.
      destruct (decide _) as [Hin|Hin]; split; intros H;
        try assumption; try (eexists; reflexivity); try contradiction.
      destruct H as [x Hx]. discriminate. }
    rewrite Hinit.
    assert (Hsub : h ∈ map fst edits -> h ∈ inputHeaders p).
    { intros Hin. apply list_elem_of_fmap in Hin as [e [-> He]].
      rewrite Forall_forall in Hedits. now apply Hedits. }
    tauto. }
  assert (Hfields : forall h, h ∈ inputHeaders p ->
            match testInputValues d' !! h with
            | Some v => field_value d' h = FieldText v
            | None => h = "__proto__" /\ field_value d' h = FieldInherited
            end).
  { intros h Hin. unfold field_value.
    destruct (testInputValues d' !! h) as [v|] eqn:Hv; [reflexivity |].
    destruct (decide (h = "__proto__")) as [->|Hne].
    - split; [reflexivity |]. now rewrite proto_is_inherited.
    - exfalso. assert (Hs : is_Some (testInputValues d' !! h)).
      { apply Hkeys. split; [assumption | now left]. }
      rewrite Hv in Hs. destruct Hs as [x Hx]. discriminate. }
  split; [exact Hkeys |]. split; [exact Hfields |].
  rewrite some_value_blank_spec. split.
  - intros (k & v & Hkv & Hv). exists k, v.
    assert (Hin : k ∈ inputHeaders p).
    { apply Hkeys. now exists v. }
    split; [assumption |]. split; [| assumption].
    unfold field_value. now rewrite Hkv.
  - intros (h & v & Hin & Hfield & Hv). exists h, v.
    split; [| assumption].
    specialize (Hfields h Hin).
    destruct (testInputValues d' !! h) as [v'|]; [congruence |].
    destruct Hfields as [_ Hf]. congruence.
Qed.

(** X16.  The goal form hands over a goal exactly when its text is not
    blank, and the goal handed over is the text trimmed: it is not
    empty and trimming leaves it as it is, so it is a goal the
    application accepts in the stage GOAL_INPUT over a file; the form is
    then loading and its button disabled.  On a blank text nothing is
    handed over and nothing changes. *)
Theorem goal_form_submits_trimmed (s : GoalInput.State) :
  match GoalInput.handleSubmit s with
  | (s', Some g) =>
      g = JS.trim (GoalInput.goal s)
      /\ g <> "" /\ JS.trim g = g
      /\ GoalInput.isLoading s' = true
      /\ GoalInput.goal s' = GoalInput.goal s
      /\ GoalInput.submit_disabled s' = true
      /\ forall w,
           App.appState (App.state w) = GOAL_INPUT ->
           App.fileData (App.state w) <> None ->
           App.enabled w (App.GoalSubmit g) = true
  | (s', None) =>
      JS.trim (GoalInput.goal s) = "" /\ s' = s
      /\ GoalInput.submit_disabled s = true
  end.
Proof.
  unfold GoalInput.handleSubmit, GoalInput.submit_disabled.
  destruct (JS.trim (GoalInput.goal s)) as [|c t] eqn:Htrim; cbn [JS.is_empty negb].
  - repeat split.
  - rewrite <- Htrim.
    assert (Hidem : JS.trim (JS.trim (GoalInput.goal s)) = JS.trim (GoalInput.goal s))
      by apply trim_idem.
    repeat split; try assumption.
    + rewrite Htrim. discriminate.
    + cbn. apply orb_true_r.
    + intros w Hst Hfile. cbn [App.enabled]. rewrite Hst, Hidem.
      destruct (App.fileData (App.state w)); [| contradiction].
      rewrite String.eqb_refl, Htrim. reflexivity.
Qed.

(** X17.  The step shown while processing is always one of the five
    labels: after [n] ticks of the interval it is the label of index [n]
    modulo five, and the labels come round every five ticks. *)
Theorem processing_steps_cycle (n : nat) :
  ProcessingView.currentStep n = n mod 5
  /\ ProcessingView.currentStep n < length ProcessingView.steps
  /\ is_Some (ProcessingView.label n)
  /\ ProcessingView.label (n + 5) = ProcessingView.label n.
Proof.
  assert (Hcur : forall k, ProcessingView.currentStep k = k mod 5).
  { induction k as [|k IH]; [reflexivity |].
    change (ProcessingView.currentStep (S k))
      with (ProcessingView.tick (ProcessingView.currentStep k)).
    rewrite IH. unfold ProcessingView.tick. change (length ProcessingView.steps) with 5.
    rewrite Nat.Div0.add_mod_idemp_l. f_equal. lia. }
  assert (Hlt : n mod 5 < 5) by (apply Nat.mod_upper_bound; lia).
  split; [apply Hcur |]. split; [rewrite Hcur; exact Hlt |]. split.
  - unfold ProcessingView.label. rewrite Hcur.
    apply lookup_lt_is_Some. exact Hlt.
  - unfold ProcessingView.label. rewrite !Hcur. f_equal.
    rewrite <- (Nat.Div0.add_mod_idemp_r n 5 5). change (5 mod 5) with 0.
    now rewrite Nat.add_0_r.
Qed.

End MoreDashboard.

(** ** Further concrete runs *)

(** A header line followed by one row. *)
Lemma derived_headers_shape_witness :
  JS.count_char newline "date,region,amount" = 0
  /\ FileUpload.derive_headers
       ("date,region,amount" +:+ String newline "2024-01,north,10")
     = FileUpload.derive_headers "date,region,amount"
  /\ exists hs,
       FileUpload.derive_headers
         ("date,region,amount" +:+ String newline "2024-01,north,10")
       = Some hs
       /\ length hs = S (JS.count_char comma "date,region,amount")
       /\ Forall (fun h => JS.count_char dquote h = 0) hs.
Proof.
  split; [reflexivity |].
  apply (derived_headers_shape "date,region,amount" "2024-01,north,10").
  reflexivity.
Defined.

(** The explanation request of the sales table. *)
Lemma explanation_request_sample_witness :
  content Examples.sales_csv <> ""
  /\ exists rows,
       geminiService.explanation_request "Forecast monthly sales" "XGBoost"
         csv (Some ["date"; "region"; "amount"])
         (Some (content Examples.sales_csv))
       = ReqExplanationCsv "Forecast monthly sales" "XGBoost"
           ["date"; "region"; "amount"] rows
       /\ (exists rest, content Examples.sales_csv = rows +:+ rest)
       /\ JS.count_char newline rows <= 4
       /\ (JS.count_char newline (content Examples.sales_csv) <= 4 ->
           rows = content Examples.sales_csv).
Proof.
  split; [discriminate |].
  refine (proj1 (explanation_request_sample "Forecast monthly sales" "XGBoost"
                   ["date"; "region"; "amount"] (content Examples.sales_csv) _)).
  discriminate.
Defined.

(** The header Age, and the longer header Percentage around it. *)
Lemma numeric_hint_extension_witness :
  geminiService.numeric_hint "Age" = true
  /\ geminiService.numeric_hint ("Percent" +:+ "Age" +:+ "") = true.
Proof.
  split; [reflexivity |].
  refine (proj2 (numeric_hint_extension "Age") _ "Percent" ""). reflexivity.
Defined.

(** The answer amount between double quotes, after a space and before a
    line feed. *)
Lemma named_header_is_selected_witness :
  let hs := ["date"; "region"; "amount"] in
  "amount" ∈ hs /\ JS.trim "amount" = "amount"
  /\ JS.count_char dquote "amount" = 0
  /\ JS.all_white_space " " = true
  /\ JS.all_white_space (String newline "") = true
  /\ geminiService.chooseTargetColumn hs
       (" " +:+ String dquote ("amount" +:+ String dquote "")
        +:+ String newline "")
     = Some "amount".
Proof.
  cbv zeta.
  assert (Hin : "amount" ∈ ["date"; "region"; "amount"])
    by (right; right; left).
  repeat (split; [first [exact Hin | reflexivity] |]).
  refine (proj2 (named_header_is_selected ["date"; "region"; "amount"]
                   "amount" " " (String newline "") Hin _ _ _ _));
    reflexivity.
Defined.

(** The sales table, the target identified and the suggestions parsed. *)
Lemma goal_submit_succeeds_witness :
  let a := App.handleFileAccepted Examples.sales_csv App.initial in
  let goal := "Forecast monthly sales" in
  App.fileData a = Some Examples.sales_csv
  /\ ~ App.target_failed Examples.service_up Examples.sales_csv goal
  /\ exists sent,
       run Examples.service_up
         (App.handleGoalSubmit Examples.parser (App.fileData a) goal) a []
       = (App.mkState MODEL_SELECTION (Some Examples.sales_csv) goal
            (App.classifyTask goal)
            (App.committed_target Examples.service_up Examples.sales_csv goal
               (App.targetColumn a))
            (JSON_of_ModelSuggestion (mkModelSuggestion "XGBoost" [] []))
            (App.selectedModel a) None,
          sent, Returned tt).
Proof.
  cbv zeta.
  assert (Hnt : ~ App.target_failed Examples.service_up Examples.sales_csv
                    "Forecast monthly sales").
  { intros (hs & _ & Hh & Hrej). injection Hh as <-. discriminate Hrej. }
  split; [reflexivity |]. split; [exact Hnt |].
  apply (goal_submit_succeeds Examples.parser Examples.service_up
           (App.handleFileAccepted Examples.sales_csv App.initial)
           Examples.sales_csv "Forecast monthly sales"
           Examples.suggestion_text
           (JSON_of_ModelSuggestion (mkModelSuggestion "XGBoost" [] [])));
    [reflexivity | exact Hnt | reflexivity | vm_compute; reflexivity].
Defined.

(** A submission over the sales table, answered request after request. *)
Lemma submission_runs_to_completion_witness :
  let J := Examples.parser in
  let w := App.step J App.start (App.FileAccepted Examples.sales_csv) in
  let goal := "Forecast monthly sales" in
  let w3 :=
    App.steps J w
      [App.GoalSubmit goal; App.Resolve 0 (Replied "amount");
       App.Resolve 0 (Replied Examples.suggestion_text)] in
  App.fileData (App.state w) = Some Examples.sales_csv
  /\ App.pending w3 = []
  /\ App.fileData (App.state w3) = Some Examples.sales_csv
  /\ App.userGoal (App.state w3) = goal
  /\ App.taskType (App.state w3) = REGRESSION
  /\ App.appState (App.state w3) = MODEL_SELECTION
  /\ App.targetColumn (App.state w3) = Some "amount".
Proof.
  cbv zeta.
  pose proof (submission_runs_to_completion Examples.parser
                (App.step Examples.parser App.start
                   (App.FileAccepted Examples.sales_csv))
                Examples.sales_csv "Forecast monthly sales"
                (Replied "amount") (Replied Examples.suggestion_text)
                eq_refl) as H.
  cbv zeta in H.
  destruct H as (_ & _ & _ & _ & Hpending & _ & Hfile & Hgoal & Htask).
  split; [reflexivity |]. split; [exact Hpending |]. split; [exact Hfile |].
  split; [exact Hgoal |]. split; [exact Htask |].
  split; vm_compute; reflexivity.
Defined.

(** A pass over the sales table in which the model suggestions are
    answered with the document null: the stage MODEL_SELECTION is entered
    over suggestions that count as false, and no model can be selected. *)
Lemma pass_without_reset_is_consistent_witness :
  let J := Examples.parser in
  let history :=
    [App.FileAccepted Examples.sales_csv;
     App.GoalSubmit "Forecast monthly sales";
     App.Resolve 0 (Replied "amount");
     App.Resolve 0 (Replied "null")] in
  let w := App.steps J App.start history in
  App.orderly_pass J App.start history = true
  /\ App.appState (App.state w) = MODEL_SELECTION
  /\ App.modelSuggestions (App.state w) = JNull
  /\ App.enabled w (App.ModelSelect "XGBoost") = false
  /\ App.fileData (App.state w) <> None
  /\ length (App.pending w) <= 1.
Proof.
  cbv zeta.
  assert (Hf : App.orderly_pass Examples.parser App.start
                 [App.FileAccepted Examples.sales_csv;
                  App.GoalSubmit "Forecast monthly sales";
                  App.Resolve 0 (Replied "amount");
                  App.Resolve 0 (Replied "null")] = true)
    by (vm_compute; reflexivity).
  split; [exact Hf |].
  split; [vm_compute; reflexivity |].
  split; [vm_compute; reflexivity |].
  split; [vm_compute; reflexivity |].
  pose proof (pass_without_reset_is_consistent Examples.parser _ Hf) as H.
  cbv zeta in H. destruct H as (_ & Hone & _ & _ & Hfile & _).
  split; [| exact Hone]. apply Hfile. vm_compute. discriminate.
Defined.

(** Both inputs filled in, the prediction answered. *)
Lemma test_model_outcome_witness :
  let p := ResultsDashboard.mkProps "Forecast monthly sales" "XGBoost"
             (Some Examples.sales_csv) REGRESSION (Some "amount") in
  let d :=
    ResultsDashboard.setTestInputValues
      (<["date" := "2024-02"]> (<["region" := "north"]> ∅))
      ResultsDashboard.initial in
  let result :=
    run Examples.service_up
      (ResultsDashboard.handleTestModel p (ResultsDashboard.testInputValues d))
      d [] in
  (forall k v, ResultsDashboard.testInputValues d !! k = Some v ->
               JS.trim v <> "")
  /\ result.2 = Returned tt
  /\ ResultsDashboard.loading_prediction
       (ResultsDashboard.isLoading result.1.1) = false
  /\ ResultsDashboard.prediction result.1.1 = "text"
  /\ ResultsDashboard.error result.1.1 = None.
Proof.
  cbv zeta.
  assert (Hall : forall k v,
            (<["date" := "2024-02"]> (<["region" := "north"]> ∅)
               : gmap string string) !! k = Some v -> JS.trim v <> "").
  { intros k v Hkv.
    destruct (decide (k = "date")) as [->|Hd].
    - rewrite lookup_insert_eq in Hkv. injection Hkv as <-. discriminate.
    - rewrite lookup_insert_ne in Hkv by congruence.
      destruct (decide (k = "region")) as [->|Hr].
      + rewrite lookup_insert_eq in Hkv. injection Hkv as <-. discriminate.
      + rewrite lookup_insert_ne, lookup_empty in Hkv by congruence.
        discriminate. }
  split; [exact Hall |].
  pose proof (test_model_outcome Examples.service_up
                (ResultsDashboard.mkProps "Forecast monthly sales" "XGBoost"
                   (Some Examples.sales_csv) REGRESSION (Some "amount"))
                (ResultsDashboard.setTestInputValues
                   (<["date" := "2024-02"]> (<["region" := "north"]> ∅))
                   ResultsDashboard.initial) Hall) as H.
  cbv zeta in H. destruct H as (H1 & H2 & H3 & _).
  split; [exact H1 |]. split; [exact H2 |]. exact H3.
Defined.


(** A table with the columns [__proto__], price and sold, the target
    sold, the field price edited: the inputs hold the key price only, the
    field of [__proto__] shows no text, and the test is not refused. *)
Lemma test_inputs_follow_fields_witness :
  let p := ResultsDashboard.mkProps "Predict the sale" "XGBoost"
             (Some Examples.proto_csv) CLASSIFICATION (Some "sold") in
  let d' :=
    foldl (fun s e => ResultsDashboard.handleInputChange e.1 e.2 s)
      (ResultsDashboard.initialInputs p ResultsDashboard.initial)
      [("price", "12")] in
  Forall (fun e => e.1 ∈ ResultsDashboard.inputHeaders p) [("price", "12")]
  /\ ResultsDashboard.inputHeaders p = ["__proto__"; "price"]
  /\ (forall h, is_Some (ResultsDashboard.testInputValues d' !! h)
                <-> h ∈ ResultsDashboard.inputHeaders p
                    /\ (h <> "__proto__" \/ h ∈ map fst [("price", "12")]))
  /\ ResultsDashboard.testInputValues d' = {[ "price" := "12" ]}
  /\ ResultsDashboard.field_value d' "__proto__"
     = ResultsDashboard.FieldInherited
  /\ ResultsDashboard.isTestButtonDisabled d' = false.
Proof.
  cbv zeta.
  assert (He : Forall
            (fun e : string * string =>
               e.1 ∈ ResultsDashboard.inputHeaders
                       (ResultsDashboard.mkProps "Predict the sale"
                          "XGBoost" (Some Examples.proto_csv) CLASSIFICATION
                          (Some "sold")))
            [("price", "12")]).
  { constructor; [| constructor]. right. left. }
  split; [exact He |]. split; [reflexivity |].
  split.
  { exact (proj1 (test_inputs_follow_fields
             (ResultsDashboard.mkProps "Predict the sale" "XGBoost"
                (Some Examples.proto_csv) CLASSIFICATION (Some "sold"))
             Examples.proto_csv ["__proto__"; "price"; "sold"]
             ResultsDashboard.initial [("price", "12")]
             eq_refl eq_refl eq_refl He)). }
  repeat split; vm_compute; reflexivity.
Defined.
